(** * Botanic-ai-web: the analysis service

    A shallow embedding of [src/services/analysisService.ts]: the image
    normalizer [compressImage], the submission client [analyzeImage] with its
    bounded retry loop, and the translation adapter [translateText].

    Conventions of the embedding.
    - A promise-returning function is a computation in the monad [Async]: it
      receives the trace of effects performed so far, extends it, and settles
      as [Resolved v] or [Rejected e].  A JavaScript [throw] inside an [async]
      function is a rejection; [try]/[catch] is [try_catch].  The trace
      survives a rejection, as effects already performed do in the browser.
    - Everything the code obtains from outside (the file reader, the canvas,
      the clock, the webhook, the generative-text service) is a field of the
      record [Browser]; the answer to the n-th [fetch] is [net n].
    - Numbers that the code keeps integral are in [Z]; strings are [string].
    - Console output is not part of the model. *)

From Stdlib Require Import ZArith QArith List String Ascii Bool Lia.
From Stdlib Require Import DecimalString.
Import ListNotations.

Local Open Scope string_scope.
Local Open Scope Z_scope.

(** ** JavaScript values and string primitives *)

(** What a [throw] or a promise rejection carries: an [Error] object with its
    [message], or any other value, kept with its conversion by [String(...)]. *)
Record Error : Type := new_Error { message : string }.

Inductive Thrown : Type :=
| ErrorObj (e : Error)
| OtherValue (asString : string).

(** [error instanceof Error ? error : new Error(String(error))] *)
Definition toError (error : Thrown) : Error :=
  match error with
  | ErrorObj e => e
  | OtherValue s => new_Error s
  end.

(** [lastError?.message] with [undefined] read as the empty string, which
    [||] treats alike. *)
Definition optional_message (lastError : option Error) : string :=
  match lastError with
  | Some e => message e
  | None => ""
  end.

(** [!s] on a string: only the empty string is falsy. *)
Definition is_empty (s : string) : bool :=
  match s with
  | EmptyString => true
  | String _ _ => false
  end.

(** [a || b] on strings. *)
Definition or_else (a b : string) : string :=
  if is_empty a then b else a.

(** [`${n}`] for an integral number. *)
Definition show_int (n : Z) : string :=
  NilZero.string_of_int (Z.to_int n).

(** [s.lastIndexOf(pat)]: the greatest index at which [pat] occurs in [s],
    [-1] when there is none.  [i] is the index of the head of [s] in the whole
    string and [best] the greatest occurrence seen to its left. *)
Fixpoint lastIndexOf_from (s pat : string) (i best : Z) : Z :=
  let best' := if prefix pat s then i else best in
  match s with
  | EmptyString => best'
  | String _ s' => lastIndexOf_from s' pat (i + 1) best'
  end.

Definition lastIndexOf (s pat : string) : Z :=
  lastIndexOf_from s pat 0 (-1).

(** [s.substring(start, end)]: both indices are clamped to [0 .. length] and
    swapped when [start > end]. *)
Definition js_substring (s : string) (start end_ : Z) : string :=
  let len := Z.of_nat (String.length s) in
  let intStart := Z.min (Z.max start 0) len in
  let intEnd := Z.min (Z.max end_ 0) len in
  let from := Z.min intStart intEnd in
  let to := Z.max intStart intEnd in
  substring (Z.to_nat from) (Z.to_nat (to - from)) s.

(** [Math.round(a / b)] for integers [a] and [b > 0]: the quotient rounded to
    the nearest integer, halves towards plus infinity.  The browser computes
    the quotient in double precision; for [|a| < 2^51] and [b < 2^31] the
    exact quotient is further from a half-integer than the error of the
    division whenever it differs from one, so the rounded result is the one
    computed here on exact integers. *)
Definition Math_round_div (a b : Z) : Z :=
  (2 * a + b) / (2 * b).

(** ** Files, requests and the outside world *)

(** A [File] (a [Blob] with a name).  [pixels] records what decoding the bytes
    as an image yields: the natural width and height, or [None] when the bytes
    are not a decodable image. *)
Record File : Type := mkFile {
  name : string;
  type : string;
  size : Z;
  lastModified : Z;
  pixels : option (Z * Z)
}.

Inductive Language : Type := English | Hindi | Bengali.

Definition Language_string (l : Language) : string :=
  match l with
  | English => "English"
  | Hindi => "Hindi"
  | Bengali => "Bengali"
  end.

Inductive FormValue : Type :=
| FormFile (f : File) (filename : string)
| FormString (s : string).

Definition FormData : Type := list (string * FormValue).

(** [settled A]: how a promise of an [A] ends. *)
Inductive Settled (A : Type) : Type :=
| Resolved (a : A)
| Rejected (e : Thrown).
Arguments Resolved {A} a.
Arguments Rejected {A} e.

(** An HTTP response as the code observes it: [status], [statusText] and the
    outcome of reading the body with [response.text()]. *)
Record Response : Type := mkResponse {
  status : Z;
  statusText : string;
  text : Settled string
}.

(** [response.ok]: the status is in the range 200-299. *)
Definition ok (r : Response) : bool :=
  (200 <=? status r) && (status r <=? 299).

(** The reply of the generative-text service; [gen_text] is [response.text],
    a string or [undefined]. *)
Record GenerateContentResponse : Type := mkGenResponse {
  gen_text : option string
}.

Inductive Event : Type :=
| Fetch (url method : string) (body : FormData)
| Sleep (ms : Z)
| GenerateContent (model contents : string).

Definition Trace : Type := list Event.

Record Browser : Type := mkBrowser {
  (** [FileReader]: [Some e] when [onerror] fires with [e] instead of [onload] *)
  reader_error : option Thrown;
  (** the event [img.onerror] receives when the data does not decode *)
  image_error : Thrown;
  (** whether [canvas.getContext('2d')] returns a context *)
  canvas_context : bool;
  (** [canvas.toBlob] for a canvas of the given width and height, media type
      and quality: the byte size of the encoded blob, or [None] for [null] *)
  toBlob : Z -> Z -> string -> Q -> option Z;
  (** [Date.now()] *)
  Date_now : Z;
  (** the outcome of the n-th call of [fetch] of a run, counted from 0 *)
  net : nat -> Settled Response;
  (** [new GoogleGenAI(...)]: [Some e] when the constructor throws [e] *)
  genai_new : option Thrown;
  (** [ai.models.generateContent] for a model and a prompt *)
  generateContent : string -> string -> Settled GenerateContentResponse
}.

(** ** The monad of asynchronous computations *)

Definition Async (A : Type) : Type := Trace -> Trace * Settled A.

Definition ret {A} (a : A) : Async A :=
  fun t => (t, Resolved a).

Definition bind {A B} (m : Async A) (k : A -> Async B) : Async B :=
  fun t =>
    match m t with
    | (t', Resolved a) => k a t'
    | (t', Rejected e) => (t', Rejected e)
    end.

Definition throw {A} (e : Thrown) : Async A :=
  fun t => (t, Rejected e).

(** [throw new Error(msg)] *)
Definition throw_Error {A} (msg : string) : Async A :=
  throw (ErrorObj (new_Error msg)).

Definition try_catch {A} (m : Async A) (handler : Thrown -> Async A) : Async A :=
  fun t =>
    match m t with
    | (t', Resolved a) => (t', Resolved a)
    | (t', Rejected e) => handler e t'
    end.

(** [await p] for an already settled promise [p]. *)
Definition await {A} (p : Settled A) : Async A :=
  fun t => (t, p).

Definition emit (e : Event) : Async unit :=
  fun t => ((t ++ [e])%list, Resolved tt).

Declare Scope async_scope.
Delimit Scope async_scope with async.
Notation "x <- m ;; k" := (bind m (fun x => k))
  (at level 100, m at next level, right associativity) : async_scope.
Notation "m ;; k" := (bind m (fun _ => k))
  (at level 100, right associativity) : async_scope.
Local Open Scope async_scope.

(** A fresh run of a computation: no effect has been performed yet. *)
Definition run {A} (m : Async A) : Trace * Settled A := m [].

Definition is_fetch (e : Event) : bool :=
  match e with Fetch _ _ _ => true | _ => false end.

Definition is_generate (e : Event) : bool :=
  match e with GenerateContent _ _ => true | _ => false end.

(** The number of requests to the webhook recorded in a trace. *)
Definition fetch_count (t : Trace) : nat :=
  List.length (filter is_fetch t).

(** The number of requests of any kind that left the browser. *)
Definition network_calls (t : Trace) : nat :=
  List.length (filter (fun e => is_fetch e || is_generate e) t).

(** The backoff delays recorded in a trace, in order. *)
Fixpoint delays (t : Trace) : list Z :=
  match t with
  | [] => []
  | Sleep ms :: t' => ms :: delays t'
  | _ :: t' => delays t'
  end.

(** ** Image Normalizer: [compressImage] *)

(** Lines 19-31: the target size of the canvas for an image of the given
    natural [width] and [height]. *)
Definition resize (width height maxWidth : Z) : Z * Z :=
  if width >? height then
    if width >? maxWidth then
      (maxWidth, Math_round_div (height * maxWidth) width)
    else (width, height)
  else
    if height >? maxWidth then
      (Math_round_div (width * maxWidth) height, maxWidth)
    else (width, height).

(** Line 47: the file name with a [.jpg] extension. *)
Definition jpg_name (file_name : string) : string :=
  js_substring file_name 0 (lastIndexOf file_name ".") ++ ".jpg".

Definition default {A} (d : A) (o : option A) : A :=
  match o with
  | Some a => a
  | None => d
  end.

(** ** JSON values *)

#[local] Set Warnings "-register-all".

(** A value produced by [JSON.parse].  A number is kept as the literal that
    denotes it.  The members of an object are its own properties in
    enumeration order, with distinct keys. *)
Inductive JSValue : Type :=
| JNull
| JBool (b : bool)
| JNumber (literal : string)
| JString (s : string)
| JArray (items : list JSValue)
| JObject (members : list (string * JSValue)).

Fixpoint get_member (key : string) (members : list (string * JSValue))
  : option JSValue :=
  match members with
  | [] => None
  | (k, v) :: rest => if String.eqb k key then Some v else get_member key rest
  end.

(** [value?.text]: [None] is [undefined].  [null] short-circuits; primitives
    and arrays have no property named [text]. *)
Definition optional_text (value : JSValue) : option JSValue :=
  match value with
  | JObject members => get_member "text" members
  | _ => None
  end.

Definition dquote : ascii := "034"%char.
Definition newline : string := String "010"%char "".

(** A reference implementation of the platform's [JSON.parse] and
    [JSON.stringify(value, null, 2)], after ECMA-404 and ECMA-262, on strings
    of bytes in UTF-8 (a lone surrogate escape is kept as three bytes and
    written back unescaped).  The service below takes the two functions as
    parameters; this implementation serves to run it on concrete bodies. *)
Module Json.

Definition code (c : ascii) : N := N_of_ascii c.

Definition is_ws (c : ascii) : bool :=
  ((code c =? 32) || (code c =? 9) || (code c =? 10) || (code c =? 13))%N.

Definition is_digit (c : ascii) : bool :=
  ((48 <=? code c) && (code c <=? 57))%N.

Fixpoint skip_ws (s : string) : string :=
  match s with
  | String c s' => if is_ws c then skip_ws s' else s
  | EmptyString => s
  end.

Fixpoint strip_prefix (p s : string) : option string :=
  match p, s with
  | EmptyString, _ => Some s
  | String a p', String b s' => if Ascii.eqb a b then strip_prefix p' s' else None
  | String _ _, EmptyString => None
  end.

(** The longest prefix of digits, and the rest. *)
Fixpoint take_digits (s : string) : string * string :=
  match s with
  | String c s' =>
    if is_digit c then let (d, r) := take_digits s' in (String c d, r)
    else (EmptyString, s)
  | EmptyString => (EmptyString, EmptyString)
  end.

(** number = [ "-" ] int [ "." digits ] [ ("e" | "E") [ "+" | "-" ] digits ] *)
Definition parse_number (s : string) : option (string * string) :=
  let (sign, s1) :=
    match s with
    | String "-"%char r => ("-", r)
    | _ => ("", s)
    end in
  let int_part :=
    match s1 with
    | String "0"%char r => Some ("0", r)
    | _ => let (d, r) := take_digits s1 in
           if is_empty d then None else Some (d, r)
    end in
  match int_part with
  | None => None
  | Some (int, s2) =>
    let frac_part :=
      match s2 with
      | String "."%char r =>
        let (d, r') := take_digits r in
        if is_empty d then None else Some ("." ++ d, r')
      | _ => Some ("", s2)
      end in
    match frac_part with
    | None => None
    | Some (frac, s3) =>
      let exp_part :=
        match s3 with
        | String e r =>
          if (Ascii.eqb e "e" || Ascii.eqb e "E")%char then
            let (esign, r1) :=
              match r with
              | String "+"%char r' => ("+", r')
              | String "-"%char r' => ("-", r')
              | _ => ("", r)
              end in
            let (d, r2) := take_digits r1 in
            if is_empty d then None
            else Some (String e esign ++ d, r2)
          else Some ("", s3)
        | EmptyString => Some ("", s3)
        end in
      match exp_part with
      | None => None
      | Some (exp, s4) => Some (sign ++ int ++ frac ++ exp, s4)
      end
    end
  end.

Definition hex_digit (c : ascii) : option N :=
  let n := code c in
  (if (48 <=? n) && (n <=? 57) then Some (n - 48)
   else if (65 <=? n) && (n <=? 70) then Some (n - 55)
   else if (97 <=? n) && (n <=? 102) then Some (n - 87)
   else None)%N.

Definition hex4 (a b c d : ascii) : option N :=
  match hex_digit a, hex_digit b, hex_digit c, hex_digit d with
  | Some x, Some y, Some z, Some w => Some (((x * 16 + y) * 16 + z) * 16 + w)%N
  | _, _, _, _ => None
  end.

(** An element of a string literal: a byte of the source, or the UTF-16 code
    unit of a [\uXXXX] escape. *)
Inductive StrItem : Type :=
| Byte (c : ascii)
| Unit16 (u : N).

(** The characters of a string literal after its opening quote, up to and
    including the closing quote. *)
Fixpoint parse_chars (s : string) : option (list StrItem * string) :=
  let cons_item (i : StrItem) (r : option (list StrItem * string)) :=
    match r with
    | Some (items, rest) => Some (i :: items, rest)
    | None => None
    end in
  match s with
  | EmptyString => None
  | String c s' =>
    if Ascii.eqb c dquote then Some ([], s')
    else if Ascii.eqb c "\"%char then
      match s' with
      | String "u"%char (String h1 (String h2 (String h3 (String h4 s'')))) =>
        match hex4 h1 h2 h3 h4 with
        | Some u => cons_item (Unit16 u) (parse_chars s'')
        | None => None
        end
      | String e s'' =>
        let simple (b : ascii) := cons_item (Byte b) (parse_chars s'') in
        if Ascii.eqb e dquote then simple dquote
        else if Ascii.eqb e "\"%char then simple "\"%char
        else if Ascii.eqb e "/"%char then simple "/"%char
        else if Ascii.eqb e "b"%char then simple "008"%char
        else if Ascii.eqb e "f"%char then simple "012"%char
        else if Ascii.eqb e "n"%char then simple "010"%char
        else if Ascii.eqb e "r"%char then simple "013"%char
        else if Ascii.eqb e "t"%char then simple "009"%char
        else None
      | EmptyString => None
      end
    else if (code c <? 32)%N then None
    else cons_item (Byte c) (parse_chars s')
  end.

Definition byte_of (n : N) : ascii := ascii_of_N n.

(** The UTF-8 encoding of a code point (a lone surrogate is encoded like any
    other code point of the basic plane). *)
Definition utf8 (cp : N) : string :=
  (if cp <? 128 then String (byte_of cp) ""
   else if cp <? 2048 then
     String (byte_of (192 + cp / 64)) (String (byte_of (128 + cp mod 64)) "")
   else if cp <? 65536 then
     String (byte_of (224 + cp / 4096))
       (String (byte_of (128 + (cp / 64) mod 64))
          (String (byte_of (128 + cp mod 64)) ""))
   else
     String (byte_of (240 + cp / 262144))
       (String (byte_of (128 + (cp / 4096) mod 64))
          (String (byte_of (128 + (cp / 64) mod 64))
             (String (byte_of (128 + cp mod 64)) ""))))%N.

Definition is_high_surrogate (u : N) : bool := ((55296 <=? u) && (u <=? 56319))%N.
Definition is_low_surrogate (u : N) : bool := ((56320 <=? u) && (u <=? 57343))%N.

(** The string denoted by the elements of a literal; a high surrogate
    followed by a low one is a single code point. *)
Fixpoint decode_items (items : list StrItem) : string :=
  match items with
  | [] => ""
  | Byte c :: rest => String c (decode_items rest)
  | Unit16 hi :: rest =>
    match rest with
    | Unit16 lo :: rest' =>
      if is_high_surrogate hi && is_low_surrogate lo
      then utf8 (65536 + (hi - 55296) * 1024 + (lo - 56320))%N ++ decode_items rest'
      else utf8 hi ++ decode_items rest
    | _ => utf8 hi ++ decode_items rest
    end
  end.

(** A string literal after its opening quote. *)
Definition parse_string (s : string) : option (string * string) :=
  match parse_chars s with
  | Some (items, rest) => Some (decode_items items, rest)
  | None => None
  end.

Fixpoint all_digits (s : string) : bool :=
  match s with
  | EmptyString => true
  | String c s' => is_digit c && all_digits s'
  end.

Fixpoint digits_value (s : string) (acc : N) : N :=
  match s with
  | EmptyString => acc
  | String c s' => digits_value s' (acc * 10 + (code c - 48))%N
  end.

(** The array index a property key denotes, if it is one: a canonical decimal
    numeral below [2^32 - 1]. *)
Definition array_index (key : string) : option N :=
  match key with
  | EmptyString => None
  | String c rest =>
    if all_digits key
       && (negb (Ascii.eqb c "0"%char) || is_empty rest)
       && (Nat.leb (String.length key) 10)
    then let n := digits_value key 0 in
         if (n <? 4294967295)%N then Some n else None
    else None
  end.

Fixpoint replace_member (key : string) (v : JSValue)
  (members : list (string * JSValue)) : option (list (string * JSValue)) :=
  match members with
  | [] => None
  | (k, w) :: rest =>
    if String.eqb k key then Some ((k, v) :: rest)
    else match replace_member key v rest with
         | Some rest' => Some ((k, w) :: rest')
         | None => None
         end
  end.

(** A new key that is an array index goes among the other indices, in
    ascending order, before every other key. *)
Fixpoint insert_index (i : N) (key : string) (v : JSValue)
  (members : list (string * JSValue)) : list (string * JSValue) :=
  match members with
  | [] => [(key, v)]
  | (k, w) :: rest =>
    match array_index k with
    | Some j => if (j <? i)%N then (k, w) :: insert_index i key v rest
                else (key, v) :: members
    | None => (key, v) :: members
    end
  end.

(** [CreateDataProperty]: an existing key keeps its place and takes the new
    value; a new key is added in property enumeration order. *)
Definition define_member (key : string) (v : JSValue)
  (members : list (string * JSValue)) : list (string * JSValue) :=
  match replace_member key v members with
  | Some members' => members'
  | None =>
    match array_index key with
    | Some i => insert_index i key v members
    | None => (members ++ [(key, v)])%list
    end
  end.

(** [parse_value] reads a value at the head of [s]; [parse_elements] the
    elements of an array after ["["] or [","], [parse_members] the members of
    an object after ["{"] or [","].  Each returns the rest of the input. *)
Fixpoint parse_value (fuel : nat) (s : string) : option (JSValue * string) :=
  match fuel with
  | O => None
  | S fuel' =>
    match s with
    | EmptyString => None
    | String c s' =>
      if Ascii.eqb c "n"%char then
        option_map (fun r => (JNull, r)) (strip_prefix "null" s)
      else if Ascii.eqb c "t"%char then
        option_map (fun r => (JBool true, r)) (strip_prefix "true" s)
      else if Ascii.eqb c "f"%char then
        option_map (fun r => (JBool false, r)) (strip_prefix "false" s)
      else if Ascii.eqb c dquote then
        option_map (fun '(str, r) => (JString str, r)) (parse_string s')
      else if Ascii.eqb c "["%char then
        match skip_ws s' with
        | String "]"%char r => Some (JArray [], r)
        | s1 => option_map (fun '(items, r) => (JArray items, r))
                  (parse_elements fuel' s1)
        end
      else if Ascii.eqb c "{"%char then
        match skip_ws s' with
        | String "}"%char r => Some (JObject [], r)
        | s1 => option_map (fun '(members, r) => (JObject members, r))
                  (parse_members fuel' s1 [])
        end
      else
        option_map (fun '(lit, r) => (JNumber lit, r)) (parse_number s)
    end
  end

with parse_elements (fuel : nat) (s : string) : option (list JSValue * string) :=
  match fuel with
  | O => None
  | S fuel' =>
    match parse_value fuel' (skip_ws s) with
    | None => None
    | Some (v, r) =>
      match skip_ws r with
      | String "]"%char r' => Some ([v], r')
      | String ","%char r' =>
        option_map (fun '(items, r'') => (v :: items, r''))
          (parse_elements fuel' r')
      | _ => None
      end
    end
  end

with parse_members (fuel : nat) (s : string) (acc : list (string * JSValue))
  : option (list (string * JSValue) * string) :=
  match fuel with
  | O => None
  | S fuel' =>
    match skip_ws s with
    | String q s1 =>
      if Ascii.eqb q dquote then
        match parse_string s1 with
        | None => None
        | Some (key, s2) =>
          match skip_ws s2 with
          | String ":"%char s3 =>
            match parse_value fuel' (skip_ws s3) with
            | None => None
            | Some (v, r) =>
              let acc' := define_member key v acc in
              match skip_ws r with
              | String "}"%char r' => Some (acc', r')
              | String ","%char r' => parse_members fuel' r' acc'
              | _ => None
              end
            end
          | _ => None
          end
        end
      else None
    | EmptyString => None
    end
  end.

(** [JSON.parse(text)]: [None] stands for the [SyntaxError] it throws.  Every
    recursive call follows the reading of at least one character, twice at
    most for one character, so the fuel is never exhausted. *)
Definition parse (text : string) : option JSValue :=
  match parse_value (2 * String.length text + 2) (skip_ws text) with
  | Some (v, rest) => if is_empty (skip_ws rest) then Some v else None
  | None => None
  end.

Definition hex_char (n : N) : ascii :=
  (if n <? 10 then byte_of (48 + n) else byte_of (87 + n))%N.

(** [QuoteJSONString] on bytes: the quote, the backslash and the control
    characters are escaped. *)
Fixpoint quote_chars (s : string) : string :=
  match s with
  | EmptyString => ""
  | String c s' =>
    let n := code c in
    (if Ascii.eqb c dquote then String "\" (String dquote "")
     else if Ascii.eqb c "\"%char then "\\"
     else if (n =? 8)%N then "\b"
     else if (n =? 12)%N then "\f"
     else if (n =? 10)%N then "\n"
     else if (n =? 13)%N then "\r"
     else if (n =? 9)%N then "\t"
     else if (n <? 32)%N then
       "\u00" ++ String (hex_char (n / 16)) (String (hex_char (n mod 16)) "")
     else String c "") ++ quote_chars s'
  end.

Definition quote (s : string) : string :=
  String dquote (quote_chars s) ++ String dquote "".

Fixpoint join (sep : string) (parts : list string) : string :=
  match parts with
  | [] => ""
  | [p] => p
  | p :: rest => p ++ sep ++ join sep rest
  end.

(** [SerializeJSONProperty] with a gap of two spaces; [indent] is the current
    indentation.  A number is written as its literal: the platform writes the
    shortest decimal of the double it denotes, which is the literal itself for
    a canonical integer literal below [2^53]. *)
Fixpoint stringify_at (indent : string) (v : JSValue) : string :=
  let inner := indent ++ "  " in
  match v with
  | JNull => "null"
  | JBool true => "true"
  | JBool false => "false"
  | JNumber lit => lit
  | JString s => quote s
  | JArray [] => "[]"
  | JArray items =>
    "[" ++ newline ++ inner
    ++ join ("," ++ newline ++ inner) (map (stringify_at inner) items)
    ++ newline ++ indent ++ "]"
  | JObject [] => "{}"
  | JObject members =>
    "{" ++ newline ++ inner
    ++ join ("," ++ newline ++ inner)
         (map (fun m => quote (fst m) ++ ": " ++ stringify_at inner (snd m)) members)
    ++ newline ++ indent ++ "}"
  end.

(** [JSON.stringify(value, null, 2)] *)
Definition stringify (v : JSValue) : string := stringify_at "" v.

End Json.

Definition MAX_RETRIES : Z := 3.
Definition INITIAL_DELAY_MS : Z := 1000.

Definition webhookUrl : string :=
  "https://belva-subarid-desiree.ngrok-free.dev/webhook-test/4dc9e45d-c64e-4a07-80b6-e320f34df0a7".

Section Service.

Variable browser : Browser.

(** The platform's [JSON.parse] ([None] for the [SyntaxError] it throws) and
    [JSON.stringify(value, null, 2)]. *)
Variable JSON_parse : string -> option JSValue.
Variable JSON_stringify : JSValue -> string.

(** [compressImage(file, maxWidth = 1024, quality = 0.7)]; an omitted argument
    is [None]. *)
Definition compressImage (file : File) (maxWidth : option Z) (quality : option Q)
  : Async File :=
  let maxWidth := default 1024 maxWidth in
  let quality := default (7 # 10)%Q quality in
  match reader_error browser with
  | Some error => throw error
  | None =>
    match pixels file with
    | None => throw (image_error browser)
    | Some (img_width, img_height) =>
      let '(width, height) := resize img_width img_height maxWidth in
      if negb (canvas_context browser) then
        throw_Error "Could not get canvas context"
      else
        match toBlob browser width height "image/jpeg" quality with
        | None => throw_Error "Canvas to Blob conversion failed"
        | Some blob_size =>
          let fileName := jpg_name (name file) in
          ret {| name := fileName;
                 type := "image/jpeg";
                 size := blob_size;
                 lastModified := Date_now browser;
                 pixels := Some (width, height) |}
        end
    end
  end.

(** ** Submission Client: [analyzeImage] *)

(** [sleep(ms)]: the timer always fires. *)
Definition sleep (ms : Z) : Async unit := emit (Sleep ms).

(** [fetch(url, { method, body })]: the request is recorded and settles as the
    network decides for a request of that rank. *)
Definition fetch (url method : string) (body : FormData) : Async Response :=
  fun t => ((t ++ [Fetch url method body])%list, net browser (fetch_count t)).

(** [`${prefix}: ${response.status} ${response.statusText} - ${errorText || '(no error body)'}`] *)
Definition status_message (prefix : string) (response : Response) (errorText : string)
  : string :=
  prefix ++ ": " ++ show_int (status response) ++ " " ++ statusText response
  ++ " - " ++ or_else errorText "(no error body)".

(** Lines 113-127: the inner [try]/[catch] around [JSON.parse]. *)
Definition extract_text (responseText : string) : Async string :=
  try_catch
    (match JSON_parse responseText with
     | None => throw_Error "SyntaxError"
     | Some webhookResponse =>
       let analysisText := optional_text webhookResponse in
       match analysisText with
       | Some (JString analysisText) => ret analysisText
       | _ =>
         ret ("Could not find analysis text in the response. The service returned:"
              ++ newline ++ newline ++ JSON_stringify webhookResponse)
       end
     end)
    (fun e => ret responseText).

(** Lines 93-127: what the outer [try] does with the response of [fetch]; it
    resolves with the value the function returns and rejects with what the
    block throws. *)
Definition handle_response (response : Response) : Async string :=
  if (status response >=? 400) && (status response <? 500) then
    errorText <- await (text response) ;;
    throw_Error (status_message "Analysis service rejected the request" response errorText)
  else if negb (ok response) then
    errorText <- await (text response) ;;
    throw_Error (status_message "Webhook request failed" response errorText)
  else
    responseText <- await (text response) ;;
    if is_empty responseText then
      throw_Error "The analysis service returned a successful but empty response."
    else extract_text responseText.

(** Lines 84-127: the outer [try] block. *)
Definition request_once (formData : FormData) : Async string :=
  response <- fetch webhookUrl "POST" formData ;;
  handle_response response.

(** Lines 128-137: the outer [catch]; it resolves with the new [lastError]. *)
Definition on_failure (attempt : Z) (error : Thrown) : Async Error :=
  let lastError := toError error in
  (if attempt <? MAX_RETRIES then
     let delay := INITIAL_DELAY_MS * 2 ^ (attempt - 1) in
     sleep delay
   else ret tt) ;;
  ret lastError.

(** Line 141: the message of the error thrown after the loop. *)
Definition exhausted_message (lastError : option Error) : string :=
  "Failed to get a response from the analysis service after "
  ++ show_int MAX_RETRIES
  ++ " attempts. The service may be temporarily unavailable. Last error: "
  ++ or_else (optional_message lastError) "Unknown error".

(** Lines 83-141: [for (let attempt = 1; attempt <= MAX_RETRIES; attempt++)]
    and the [throw] that follows it.  [remaining] counts the iterations still
    to run, so [attempt = MAX_RETRIES - remaining + 1] and the loop condition
    holds exactly when [remaining] is not zero. *)
Fixpoint retry_loop (formData : FormData) (remaining : nat) (lastError : option Error)
  : Async string :=
  match remaining with
  | O => throw_Error (exhausted_message lastError)
  | S remaining' =>
    let attempt := MAX_RETRIES - Z.of_nat remaining' in
    outcome <- try_catch
                 (result <- request_once formData ;; ret (inl result))
                 (fun error => lastError' <- on_failure attempt error ;;
                               ret (inr lastError')) ;;
    match outcome with
    | inl result => ret result
    | inr lastError' => retry_loop formData remaining' (Some lastError')
    end
  end.

(** Lines 77-79: the multipart body. *)
Definition build_formData (compressedFile : File) (language : Language) : FormData :=
  [("image", FormFile compressedFile (name compressedFile));
   ("language", FormString (Language_string language))].

(** [analyzeImage(imageFile, language = 'English')] *)
Definition analyzeImage (imageFile : File) (language : option Language)
  : Async string :=
  let language := default English language in
  compressedFile <- compressImage imageFile None None ;;
  let formData := build_formData compressedFile language in
  retry_loop formData (Z.to_nat MAX_RETRIES) None.

(** ** Translation Adapter: [translateText] *)

Definition translation_model : string := "gemini-3-flash-preview".

(** Line 159: the prompt. *)
Definition translation_prompt (text : string) (targetLanguage : Language) : string :=
  "Translate the following text to " ++ Language_string targetLanguage
  ++ ". Do not translate technical terms, botanical names, or proper nouns unless it is natural to do so in "
  ++ Language_string targetLanguage
  ++ ". Maintain the original markdown formatting (like **bold** text):"
  ++ newline ++ newline ++ "---" ++ newline ++ newline ++ text.

(** [new GoogleGenAI({ apiKey })] *)
Definition new_GoogleGenAI : Async unit :=
  match genai_new browser with
  | Some error => throw error
  | None => ret tt
  end.

(** [ai.models.generateContent({ model, contents })] *)
Definition models_generateContent (model contents : string)
  : Async GenerateContentResponse :=
  fun t => ((t ++ [GenerateContent model contents])%list,
            generateContent browser model contents).

Definition translateText (text : string) (targetLanguage : Language) : Async string :=
  if is_empty text then ret ""
  else
    try_catch
      (new_GoogleGenAI ;;
       response <- models_generateContent translation_model
                     (translation_prompt text targetLanguage) ;;
       let translatedText := gen_text response in
       match translatedText with
       | None => throw_Error "Translation service returned an empty response."
       | Some translatedText =>
         if is_empty translatedText then
           throw_Error "Translation service returned an empty response."
         else ret translatedText
       end)
      (fun error => ret text).

End Service.

(** ** String replacement *)

(** The first occurrence of [pat] in [s]: what precedes it and what follows
    it. *)
Fixpoint split_at_first (pat s : string) : option (string * string) :=
  match Json.strip_prefix pat s with
  | Some following => Some ("", following)
  | None =>
    match s with
    | EmptyString => None
    | String c s' =>
      match split_at_first pat s' with
      | Some (preceding, following) => Some (String c preceding, following)
      | None => None
      end
    end
  end.

(** [GetSubstitution] for a search by string, which has no captures: in the
    replacement text [$$] stands for a dollar sign, [$&] for the matched
    text, [$`] for what precedes the match and [$'] for what follows it; any
    other character, a lone [$] included, stands for itself. *)
Fixpoint get_substitution (matched preceding following template : string) : string :=
  match template with
  | EmptyString => ""
  | String c tail =>
    if Ascii.eqb c "$" then
      match tail with
      | EmptyString => "$"
      | String d rest =>
        if Ascii.eqb d "$" then
          "$" ++ get_substitution matched preceding following rest
        else if Ascii.eqb d "&" then
          matched ++ get_substitution matched preceding following rest
        else if Ascii.eqb d "`" then
          preceding ++ get_substitution matched preceding following rest
        else if Ascii.eqb d "'" then
          following ++ get_substitution matched preceding following rest
        else String "$" (get_substitution matched preceding following tail)
      end
    else String c (get_substitution matched preceding following tail)
  end.

(** [s.replace(pat, replaceValue)] for two strings: the first occurrence of
    [pat] only, and [s] itself when there is none. *)
Definition js_replace (s pat replaceValue : string) : string :=
  match split_at_first pat s with
  | None => s
  | Some (preceding, following) =>
    preceding ++ get_substitution pat preceding following replaceValue ++ following
  end.

(** ** The application: [App.tsx], with the handlers of [ImageUploader] and
    the labels of [Header] *)

Module App.

Inductive Theme : Type := light | dark.

Inductive UiLanguage : Type := en | hi | bn.

(** The entries of [translations[language]] that the handlers and the submit
    button read.  The table is imported from [lib/translations], which is
    not among the sources: it is a parameter of the handlers. *)
Record Translations : Type := mkTranslations {
  selectImageError : string;
  analysisFailedError : string;
  analyzing : string;
  analyzePhoto : string
}.

(** The seven [useState] cells of [App]. *)
Record State : Type := mkState {
  theme : Theme;
  language : UiLanguage;
  selectedImage : option File;
  analysisResult : option string;
  loading : bool;
  error : option string;
  outputLanguage : Language
}.

(** Lines 9-15: the initial values. *)
Definition initial : State :=
  {| theme := dark; language := en; selectedImage := None;
     analysisResult := None; loading := false; error := None;
     outputLanguage := English |}.

Definition setTheme (f : Theme -> Theme) (s : State) : State :=
  {| theme := f (theme s); language := language s;
     selectedImage := selectedImage s; analysisResult := analysisResult s;
     loading := loading s; error := error s;
     outputLanguage := outputLanguage s |}.

Definition setLanguage (l : UiLanguage) (s : State) : State :=
  {| theme := theme s; language := l;
     selectedImage := selectedImage s; analysisResult := analysisResult s;
     loading := loading s; error := error s;
     outputLanguage := outputLanguage s |}.

Definition setSelectedImage (f : option File) (s : State) : State :=
  {| theme := theme s; language := language s;
     selectedImage := f; analysisResult := analysisResult s;
     loading := loading s; error := error s;
     outputLanguage := outputLanguage s |}.

Definition setAnalysisResult (r : option string) (s : State) : State :=
  {| theme := theme s; language := language s;
     selectedImage := selectedImage s; analysisResult := r;
     loading := loading s; error := error s;
     outputLanguage := outputLanguage s |}.

Definition setLoading (b : bool) (s : State) : State :=
  {| theme := theme s; language := language s;
     selectedImage := selectedImage s; analysisResult := analysisResult s;
     loading := b; error := error s;
     outputLanguage := outputLanguage s |}.

Definition setError (e : option string) (s : State) : State :=
  {| theme := theme s; language := language s;
     selectedImage := selectedImage s; analysisResult := analysisResult s;
     loading := loading s; error := e;
     outputLanguage := outputLanguage s |}.

Definition setOutputLanguage (l : Language) (s : State) : State :=
  {| theme := theme s; language := language s;
     selectedImage := selectedImage s; analysisResult := analysisResult s;
     loading := loading s; error := error s;
     outputLanguage := l |}.

(** Truthiness of a [string | null]. *)
Definition truthy (v : option string) : bool :=
  match v with
  | Some s => negb (is_empty s)
  | None => false
  end.

(** [a === b] on the output languages. *)
Definition Language_eqb (a b : Language) : bool :=
  match a, b with
  | English, English | Hindi, Hindi | Bengali, Bengali => true
  | _, _ => false
  end.

(** Lines 23-25. *)
Definition toggleTheme (s : State) : State :=
  setTheme (fun prevTheme => match prevTheme with light => dark | dark => light end) s.

(** Lines 27-31. *)
Definition handleImageSelect (file : option File) (s : State) : State :=
  setError None (setAnalysisResult None (setSelectedImage file s)).

(** [ImageUploader], [handleFileChange]: [event.target.files?.[0] || null]
    goes to [onImageSelect]; [files] is [None] when the target has no file
    list.  The reset of the other input's value is an effect on the page
    alone. *)
Definition handleFileChange (files : option (list File)) (s : State) : State :=
  let file := match files with
              | Some (first :: _) => Some first
              | _ => None
              end in
  handleImageSelect file s.

(** [ImageUploader], [handleClearSelection]. *)
Definition handleClearSelection (s : State) : State :=
  handleImageSelect None s.

(** [Header], line 56: the label of the theme button. *)
Definition theme_button_label (th : Theme) : string :=
  "Switch to " ++ match th with dark => "light" | light => "dark" end ++ " mode".

(** The name of a theme, as the label writes it. *)
Definition Theme_string (th : Theme) : string :=
  match th with
  | light => "light"
  | dark => "dark"
  end.

(** Line 151: whether the submit button is disabled; line 155: its text;
    lines 119, 130, 141: whether the language buttons are disabled; lines
    158 and 166: whether the error and the results are displayed. *)
Definition submit_disabled (s : State) : bool :=
  match selectedImage s with
  | None => true
  | Some _ => loading s
  end.

Definition submit_text (t : Translations) (s : State) : string :=
  if loading s then analyzing t else analyzePhoto t.

Definition language_buttons_disabled (s : State) : bool :=
  loading s && truthy (analysisResult s).

Definition shows_error (s : State) : bool := truthy (error s).

Definition shows_results (s : State) : bool := truthy (analysisResult s).

Section Handlers.

Variable browser : Browser.
Variable JSON_parse : string -> option JSValue.
Variable JSON_stringify : JSValue -> string.
Variable translations : UiLanguage -> Translations.

(** Line 67: [err instanceof Error ? err.message : "An unknown error occurred."] *)
Definition errorMessage_of (err : Thrown) : string :=
  match err with
  | ErrorObj e => message e
  | OtherValue _ => "An unknown error occurred."
  end.

(** Lines 51-72.  The handler runs on the state of the render that created
    it; the state it resolves with is the one after its last update. *)
Definition handleSubmit (s : State) : Async State :=
  let t := translations (language s) in
  match selectedImage s with
  | None => ret (setError (Some (selectImageError t)) s)
  | Some image =>
    let s1 := setAnalysisResult None (setError None (setLoading true s)) in
    s2 <- try_catch
            (result <- analyzeImage browser JSON_parse JSON_stringify image
                         (Some (outputLanguage s)) ;;
             ret (setAnalysisResult (Some result) s1))
            (fun err =>
               let errorMessage := errorMessage_of err in
               ret (setError
                      (Some (js_replace (analysisFailedError t) "{errorMessage}"
                               errorMessage)) s1)) ;;
    ret (setLoading false s2)
  end.

(** Lines 33-49. *)
Definition handleOutputLanguageChange (newLang : Language) (s : State) : Async State :=
  if Language_eqb newLang (outputLanguage s) then ret s
  else
    let s1 := setOutputLanguage newLang s in
    match analysisResult s with
    | Some report =>
      if is_empty report then ret s1
      else
        let s2 := setLoading true s1 in
        s3 <- try_catch
                (translated <- translateText browser report newLang ;;
                 ret (setAnalysisResult (Some translated) s2))
                (fun err => ret s2) ;;
        ret (setLoading false s3)
    | None => ret s1
    end.

End Handlers.

(** What the user can do. *)
Inductive Action : Type :=
| ToggleTheme
| SetLanguage (l : UiLanguage)
| FileChange (files : option (list File))
| ClearSelection
| OutputLanguageChange (newLang : Language)
| Submit.

Definition perform (browser : Browser) (JSON_parse : string -> option JSValue)
  (JSON_stringify : JSValue -> string) (translations : UiLanguage -> Translations)
  (a : Action) (s : State) : Async State :=
  match a with
  | ToggleTheme => ret (toggleTheme s)
  | SetLanguage l => ret (setLanguage l s)
  | FileChange files => ret (handleFileChange files s)
  | ClearSelection => ret (handleClearSelection s)
  | OutputLanguageChange newLang => handleOutputLanguageChange browser newLang s
  | Submit => handleSubmit browser JSON_parse JSON_stringify translations s
  end.

(** A session: the actions in order, each one completed before the next and
    each with the outside world as it is then. *)
Fixpoint session (JSON_parse : string -> option JSValue)
  (JSON_stringify : JSValue -> string) (translations : UiLanguage -> Translations)
  (steps : list (Browser * Action)) (s : State) : Async State :=
  match steps with
  | [] => ret s
  | (browser, a) :: rest =>
    s' <- perform browser JSON_parse JSON_stringify translations a s ;;
    session JSON_parse JSON_stringify translations rest s'
  end.

End App.

(** ** Vocabulary of the statements *)

(** Whether a string contains the character ['.']. *)
Fixpoint has_dot (s : string) : bool :=
  match s with
  | EmptyString => false
  | String c s' => Ascii.eqb c "."%char || has_dot s'
  end.

(** How one attempt ends, given how its [fetch] settled: the outcome of the
    outer [try] block, which performs no effect after the request. *)
Definition attempt_outcome (JSON_parse : string -> option JSValue)
  (JSON_stringify : JSValue -> string) (o : Settled Response) : Settled string :=
  snd ((response <- await o ;; handle_response JSON_parse JSON_stringify response) []).

(** A status of the class 400-499. *)
Definition client_error_status (st : Z) : bool :=
  (400 <=? st) && (st <=? 499).

(** The failures the specification calls retryable: a transport failure, a
    status outside 200-299 and 400-499, a body that cannot be read, or an
    empty body under a status 200-299. *)
Definition retryable_failure (o : Settled Response) : bool :=
  match o with
  | Rejected _ => true
  | Resolved r =>
    negb (client_error_status (status r))
    && match text r with
       | Rejected _ => true
       | Resolved body => negb (ok r) || is_empty body
       end
  end.

(** Whether an attempt ends in the outer [catch]. *)
Definition attempt_fails (JSON_parse : string -> option JSValue)
  (JSON_stringify : JSValue -> string) (o : Settled Response) : bool :=
  match attempt_outcome JSON_parse JSON_stringify o with
  | Rejected _ => true
  | Resolved _ => false
  end.

(** What the outer [catch] adds to the trace after attempt [attempt]. *)
Definition backoff (attempt : Z) : Trace :=
  if attempt <? MAX_RETRIES
  then [Sleep (INITIAL_DELAY_MS * 2 ^ (attempt - 1))]
  else [].

(** The trace of a submission in which, from attempt [attempt] on, [failures]
    attempts fail in a row and, when [last] holds, one more request ends the
    run: each failing attempt is a request followed by its backoff. *)
Fixpoint schedule (request : Event) (attempt : Z) (failures : nat) (last : bool)
  : Trace :=
  match failures with
  | O => if last then [request] else []
  | S n => (request :: backoff attempt ++ schedule request (attempt + 1) n last)%list
  end.

(** The request of a submission of the compressed file. *)
Definition submission (compressed : File) (language : option Language) : Event :=
  Fetch webhookUrl "POST" (build_formData compressed (default English language)).

(** ** Sample inputs *)

(** A browser in which the reader, the canvas and the encoder work, the clock
    is fixed, and the two services answer as given. *)
Definition sample_browser (network : nat -> Settled Response)
  (service : Settled GenerateContentResponse) : Browser :=
  {| reader_error := None;
     image_error := OtherValue "[object Event]";
     canvas_context := true;
     toBlob := fun w h _ _ => Some (w * h / 10);
     Date_now := 1700000000000;
     net := network;
     genai_new := None;
     generateContent := fun _ _ => service |}.

Definition reply (st : Z) (stText body : string) : Settled Response :=
  Resolved {| status := st; statusText := stText; text := Resolved body |}.

Definition no_translation : Settled GenerateContentResponse :=
  Resolved {| gen_text := None |}.

(** A landscape photograph larger than the limit, a picture below it, and a
    file whose name has no extension. *)
Definition leaf_png : File :=
  {| name := "leaf.photo.png"; type := "image/png"; size := 5242880;
     lastModified := 0; pixels := Some (4000, 3000) |}.

Definition thumb_gif : File :=
  {| name := "thumb.gif"; type := "image/gif"; size := 20480;
     lastModified := 0; pixels := Some (640, 480) |}.

Definition soil_raw : File :=
  {| name := "soil"; type := "image/png"; size := 1048576;
     lastModified := 0; pixels := Some (600, 2400) |}.

(** The [FormData] of a submission of [leaf_png] in English. *)
Definition leaf_form : FormData :=
  [("image", FormFile {| name := "leaf.photo.jpg"; type := "image/jpeg";
                         size := 78643; lastModified := 1700000000000;
                         pixels := Some (1024, 768) |} "leaf.photo.jpg");
   ("language", FormString "English")].

Definition leaf_request : Event := Fetch webhookUrl "POST" leaf_form.

Definition plain_body : string := "plain text report".

(** The body [{"text":"ok"}], a JSON body without a [text] member, and the
    networks of the scenarios. *)
Definition quoted (s : string) : string :=
  String dquote s ++ String dquote "".

Definition body_ok : string := "{" ++ quoted "text" ++ ":" ++ quoted "ok" ++ "}".

Definition body_other : string := "{" ++ quoted "result" ++ ":" ++ quoted "x" ++ "}".

Definition always (o : Settled Response) : nat -> Settled Response :=
  fun _ => o.

Definition third_time_lucky : nat -> Settled Response :=
  fun n =>
    match n with
    | 2%nat => reply 200 "OK" body_ok
    | _ => reply 500 "Internal Server Error" "down"
    end.

(** A browser without a 2D canvas context, one whose file reader fails, and
    a file that is not an image. *)
Definition no_canvas_browser : Browser :=
  {| reader_error := None;
     image_error := OtherValue "[object Event]";
     canvas_context := false;
     toBlob := fun w h _ _ => Some (w * h / 10);
     Date_now := 1700000000000;
     net := always (reply 200 "OK" body_ok);
     genai_new := None;
     generateContent := fun _ _ => no_translation |}.

Definition notes_txt : File :=
  {| name := "notes.txt"; type := "text/plain"; size := 12;
     lastModified := 0; pixels := None |}.

(** A panorama so wide that its height rounds to zero. *)
Definition strip_png : File :=
  {| name := "strip.png"; type := "image/png"; size := 4096;
     lastModified := 0; pixels := Some (5000, 2) |}.

(** A table of user-interface texts, and the state after [leaf_png] has been
    chosen. *)
Definition sample_translations : App.UiLanguage -> App.Translations :=
  fun _ =>
    {| App.selectImageError := "Please select an image first.";
       App.analysisFailedError := "Analysis failed: {errorMessage}";
       App.analyzing := "Analyzing...";
       App.analyzePhoto := "Analyze Photo" |}.

Definition leaf_chosen : App.State :=
  App.handleImageSelect (Some leaf_png) App.initial.

(** Whether a character occurs in a string. *)
Fixpoint contains_char (c : ascii) (s : string) : bool :=
  match s with
  | EmptyString => false
  | String d s' => Ascii.eqb d c || contains_char c s'
  end.

(** The states of the application between two actions: nothing is loading,
    a report belongs to a selected image, and a report and an error are
    never held together. *)
Definition at_rest (s : App.State) : Prop :=
  App.loading s = false
  /\ (App.analysisResult s <> None -> App.selectedImage s <> None)
  /\ (App.analysisResult s = None \/ App.error s = None).

(** A webhook error text with the pattern [$&] in it. *)
Definition price_reply : Settled Response :=
  reply 500 "Internal Server Error" "fee $& tax".

(** * Properties *)

(** ** String primitives *)

Lemma substring_prefix (p r : string) :
  substring 0 (String.length p) (p ++ r) = p.
Proof.
  induction p as [|c p IH]; simpl.
  - destruct r; reflexivity.
  - now rewrite IH.
Qed.

Lemma string_length_app (p r : string) :
  String.length (p ++ r) = (String.length p + String.length r)%nat.
Proof.
  induction p as [|c p IH]; simpl; [reflexivity | now rewrite IH].
Qed.

Lemma js_substring_prefix (p r : string) :
  js_substring (p ++ r) 0 (Z.of_nat (String.length p)) = p.
Proof.
  unfold js_substring.
  rewrite string_length_app, Nat2Z.inj_add.
  replace (Z.min (Z.max 0 0) _) with 0 by lia.
  replace (Z.min (Z.max (Z.of_nat (String.length p)) 0) _)
    with (Z.of_nat (String.length p)) by lia.
  replace (Z.min 0 _) with 0 by lia.
  replace (Z.max 0 _ - 0) with (Z.of_nat (String.length p)) by lia.
  rewrite Nat2Z.id. apply substring_prefix.
Qed.

Lemma js_substring_empty (s : string) (e : Z) :
  e <= 0 -> js_substring s 0 e = "".
Proof.
  intros He. unfold js_substring.
  replace (Z.min (Z.max 0 0) _) with 0 by lia.
  replace (Z.min (Z.max e 0) _) with 0 by lia.
  simpl. destruct s; reflexivity.
Qed.

Lemma prefix_dot (c : ascii) (s : string) :
  prefix "." (String c s) = Ascii.eqb c ".".
Proof.
  change (prefix "." (String c s))
    with (if ascii_dec "." c then prefix "" s else false).
  destruct (ascii_dec "." c) as [<-|Hne].
  - rewrite Ascii.eqb_refl. destruct s; reflexivity.
  - symmetry. apply Ascii.eqb_neq. congruence.
Qed.

Lemma lastIndexOf_from_no_dot (s : string) :
  has_dot s = false ->
  forall i best, lastIndexOf_from s "." i best = best.
Proof.
  induction s as [|c s IH]; intros Hs i best.
  - reflexivity.
  - simpl in Hs. apply orb_false_iff in Hs as [Hc Hs].
    cbn [lastIndexOf_from]. rewrite prefix_dot, Hc. now apply IH.
Qed.

Lemma lastIndexOf_from_last_dot (p s : string) :
  has_dot s = false ->
  forall i best,
    lastIndexOf_from (p ++ String "." s) "." i best
    = i + Z.of_nat (String.length p).
Proof.
  intros Hs. induction p as [|c p IH]; intros i best.
  - cbn [append lastIndexOf_from]. rewrite prefix_dot.
    rewrite lastIndexOf_from_no_dot by assumption. simpl. lia.
  - cbn [append lastIndexOf_from]. rewrite IH.
    cbn [String.length]. lia.
Qed.

Lemma has_dot_split (s : string) :
  has_dot s = true ->
  exists p r, s = p ++ String "." r /\ has_dot r = false.
Proof.
  induction s as [|c s IH]; intros Hs.
  - discriminate.
  - destruct (has_dot s) eqn:Hd.
    + destruct (IH eq_refl) as (p & r & -> & Hr).
      exists (String c p), r. split; [reflexivity | assumption].
    + simpl in Hs. rewrite Hd, orb_false_r in Hs.
      apply Ascii.eqb_eq in Hs as ->.
      exists "", s. split; [reflexivity | assumption].
Qed.

Lemma jpg_name_last_dot (p r : string) :
  has_dot r = false -> jpg_name (p ++ String "." r) = p ++ ".jpg".
Proof.
  intros Hr. unfold jpg_name, lastIndexOf.
  rewrite lastIndexOf_from_last_dot by assumption.
  now rewrite Z.add_0_l, js_substring_prefix.
Qed.

Lemma jpg_name_no_dot (s : string) :
  has_dot s = false -> jpg_name s = ".jpg".
Proof.
  intros Hs. unfold jpg_name, lastIndexOf.
  rewrite lastIndexOf_from_no_dot by assumption.
  now rewrite js_substring_empty by lia.
Qed.

(** ** The reference JSON implementation on the sample bodies *)

Example parse_body_ok :
  Json.parse body_ok = Some (JObject [("text", JString "ok")]).
Proof. reflexivity. Qed.

Example parse_plain_body : Json.parse plain_body = None.
Proof. reflexivity. Qed.

Example parse_body_other :
  Json.parse body_other = Some (JObject [("result", JString "x")]).
Proof. reflexivity. Qed.

Example stringify_body_other :
  Json.stringify (JObject [("result", JString "x")])
  = "{" ++ newline ++ "  " ++ quoted "result" ++ ": " ++ quoted "x" ++ newline ++ "}".
Proof. reflexivity. Qed.

(** ** Image Normalizer *)

(** [Math.round] of a quotient is within one half of it. *)
Lemma Math_round_div_nearest (a b : Z) :
  0 < b -> 2 * Z.abs (Math_round_div a b * b - a) <= b.
Proof.
  intros Hb. unfold Math_round_div.
  pose proof (Z.div_mod (2 * a + b) (2 * b) ltac:(lia)) as Hdm.
  pose proof (Z.mod_pos_bound (2 * a + b) (2 * b) ltac:(lia)) as Hm.
  nia.
Qed.

Lemma Math_round_div_le (a b m : Z) :
  0 < b -> a <= m * b -> Math_round_div a b <= m.
Proof.
  intros Hb Ha. unfold Math_round_div.
  apply Z.lt_succ_r, Z.div_lt_upper_bound; lia.
Qed.

(** When the reader, the decoder, the canvas and the encoder all deliver,
    [compressImage] resolves, without any effect on the trace, with a JPEG
    file of the size computed by [resize]. *)
Lemma compressImage_resolves (browser : Browser) (file : File)
  (maxWidth : option Z) (quality : option Q) (w h blob_size : Z) (t : Trace) :
  reader_error browser = None ->
  pixels file = Some (w, h) ->
  canvas_context browser = true ->
  toBlob browser (fst (resize w h (default 1024 maxWidth)))
    (snd (resize w h (default 1024 maxWidth))) "image/jpeg"
    (default (7 # 10)%Q quality) = Some blob_size ->
  compressImage browser file maxWidth quality t
  = (t, Resolved {| name := jpg_name (name file);
                    type := "image/jpeg";
                    size := blob_size;
                    lastModified := Date_now browser;
                    pixels := Some (resize w h (default 1024 maxWidth)) |}).
Proof.
  intros Hr Hp Hc Hb. unfold compressImage.
  rewrite Hr, Hp.
  destruct (resize w h (default 1024 maxWidth)) as [w' h'].
  simpl in Hb. rewrite Hc, Hb. reflexivity.
Qed.

(** Whenever [compressImage] resolves, the file it resolves with has the
    name given by [jpg_name] and the size given by [resize]. *)
Lemma compressImage_resolved_inv (browser : Browser) (file out : File)
  (maxWidth : option Z) (quality : option Q) (t t' : Trace) :
  compressImage browser file maxWidth quality t = (t', Resolved out) ->
  t' = t
  /\ name out = jpg_name (name file)
  /\ type out = "image/jpeg"
  /\ exists w h, pixels file = Some (w, h)
                 /\ pixels out = Some (resize w h (default 1024 maxWidth)).
Proof.
  unfold compressImage. intros H.
  destruct (reader_error browser); [discriminate|].
  destruct (pixels file) as [[w h]|]; [|discriminate].
  destruct (resize w h (default 1024 maxWidth)) as [w' h'] eqn:Hrs.
  destruct (canvas_context browser); [|discriminate]. simpl in H.
  destruct (toBlob browser w' h' "image/jpeg" _); [|discriminate].
  unfold ret in H. injection H as <- <-.
  repeat split. exists w, h. simpl. now rewrite Hrs.
Qed.

(** ** Submission Client: one attempt *)

Create HintDb async.
#[local] Hint Unfold ret bind throw throw_Error try_catch await emit sleep : async.

Lemma fetch_count_app (t u : Trace) :
  fetch_count (t ++ u)%list = (fetch_count t + fetch_count u)%nat.
Proof.
  unfold fetch_count. now rewrite filter_app, List.length_app.
Qed.

(** After the request, an attempt performs no effect. *)
Lemma handle_response_pure (JSON_parse : string -> option JSValue)
  (JSON_stringify : JSValue -> string) (response : Response) (t : Trace) :
  handle_response JSON_parse JSON_stringify response t
  = (t, attempt_outcome JSON_parse JSON_stringify (Resolved response)).
Proof.
  unfold attempt_outcome, handle_response, extract_text.
  autounfold with async.
  destruct ((status response >=? 400) && (status response <? 500)).
  - destruct (text response); reflexivity.
  - destruct (negb (ok response)).
    + destruct (text response); reflexivity.
    + destruct (text response) as [body|e]; [|reflexivity].
      destruct (is_empty body); [reflexivity|].
      destruct (JSON_parse body) as [v|]; [|reflexivity].
      destruct (optional_text v) as [[]|]; reflexivity.
Qed.

(** Decides the comparisons on a status that occur in the goal or in the
    hypotheses, and closes the cases that contradict one another. *)
Ltac status_cases :=
  unfold ok, client_error_status in *;
  repeat match goal with
         | |- context [?a >=? ?b] => rewrite (Z.geb_leb a b)
         | H : context [?a >=? ?b] |- _ => rewrite (Z.geb_leb a b) in H
         end;
  repeat match goal with
         | |- context [?a <=? ?b] => destruct (Z.leb_spec a b)
         | |- context [?a <? ?b] => destruct (Z.ltb_spec a b)
         | H : context [?a <=? ?b] |- _ => destruct (Z.leb_spec a b)
         | H : context [?a <? ?b] |- _ => destruct (Z.ltb_spec a b)
         end;
  simpl in *; try discriminate; try lia.

Section Classification.

Variable JSON_parse : string -> option JSValue.
Variable JSON_stringify : JSValue -> string.

Let outcome_of := attempt_outcome JSON_parse JSON_stringify.

(** A status 400-499 makes the attempt throw the rejection error. *)
Lemma client_error_outcome (r : Response) (body : string) :
  client_error_status (status r) = true ->
  text r = Resolved body ->
  outcome_of (Resolved r)
  = Rejected (ErrorObj (new_Error
      (status_message "Analysis service rejected the request" r body))).
Proof.
  intros Hs Hb. unfold outcome_of, attempt_outcome, handle_response.
  autounfold with async. rewrite Hb.
  status_cases; reflexivity.
Qed.

(** Any other status outside 200-299 makes it throw the failure error. *)
Lemma server_error_outcome (r : Response) (body : string) :
  client_error_status (status r) = false ->
  ok r = false ->
  text r = Resolved body ->
  outcome_of (Resolved r)
  = Rejected (ErrorObj (new_Error (status_message "Webhook request failed" r body))).
Proof.
  intros Hs Hok Hb. unfold outcome_of, attempt_outcome, handle_response.
  autounfold with async. rewrite Hb.
  status_cases; reflexivity.
Qed.

(** An empty body under a status 200-299 makes it throw as well. *)
Lemma empty_body_outcome (r : Response) :
  ok r = true ->
  text r = Resolved "" ->
  outcome_of (Resolved r)
  = Rejected (ErrorObj (new_Error
      "The analysis service returned a successful but empty response.")).
Proof.
  intros Hok Hb. unfold outcome_of, attempt_outcome, handle_response.
  autounfold with async. rewrite Hb.
  status_cases; reflexivity.
Qed.

(** A body that is not empty, under a status 200-299, is a result. *)
Lemma success_outcome (r : Response) (body : string) :
  ok r = true ->
  text r = Resolved body ->
  is_empty body = false ->
  outcome_of (Resolved r)
  = Resolved
      match JSON_parse body with
      | None => body
      | Some webhookResponse =>
        match optional_text webhookResponse with
        | Some (JString analysisText) => analysisText
        | _ => "Could not find analysis text in the response. The service returned:"
               ++ newline ++ newline ++ JSON_stringify webhookResponse
        end
      end.
Proof.
  intros Hok Hb He. unfold outcome_of, attempt_outcome, handle_response, extract_text.
  autounfold with async. rewrite Hb, He.
  assert (Hs : (status r >=? 400) && (status r <? 500) = false) by status_cases.
  rewrite Hs, Hok. simpl.
  destruct (JSON_parse body) as [v|]; [|reflexivity].
  destruct (optional_text v) as [[]|]; reflexivity.
Qed.

Lemma retryable_failure_fails (o : Settled Response) :
  retryable_failure o = true ->
  attempt_fails JSON_parse JSON_stringify o = true.
Proof.
  unfold attempt_fails. fold outcome_of.
  destruct o as [r|e]; [|reflexivity].
  simpl. intros [Hs Hr]%andb_prop. apply negb_true_iff in Hs.
  destruct (text r) as [body|e] eqn:Hb.
  - apply orb_prop in Hr as [Hok|He].
    + apply negb_true_iff in Hok.
      now rewrite (server_error_outcome r body).
    + destruct body; [|discriminate].
      destruct (ok r) eqn:Hok.
      * now rewrite empty_body_outcome.
      * now rewrite (server_error_outcome r "").
  - unfold outcome_of, attempt_outcome, handle_response.
    autounfold with async. rewrite Hb.
    destruct (_ && _); [reflexivity|]. destruct (negb _); reflexivity.
Qed.

End Classification.

Section Attempts.

Variable browser : Browser.
Variable JSON_parse : string -> option JSValue.
Variable JSON_stringify : JSValue -> string.
Variable formData : FormData.

Let request : Event := Fetch webhookUrl "POST" formData.
Let outcome (n : nat) : Settled string :=
  attempt_outcome JSON_parse JSON_stringify (net browser n).

Lemma request_once_run (t : Trace) :
  request_once browser JSON_parse JSON_stringify formData t
  = ((t ++ [request])%list, outcome (fetch_count t)).
Proof.
  unfold request_once, bind, fetch, outcome.
  destruct (net browser (fetch_count t)) as [response|e].
  - apply handle_response_pure.
  - reflexivity.
Qed.

(** An attempt that succeeds ends the loop with its result. *)
Lemma retry_loop_success (remaining : nat) (lastError : option Error)
  (t : Trace) (result : string) :
  outcome (fetch_count t) = Resolved result ->
  retry_loop browser JSON_parse JSON_stringify formData (S remaining) lastError t
  = ((t ++ [request])%list, Resolved result).
Proof.
  intros H. cbn [retry_loop].
  unfold bind at 1, try_catch, bind at 1.
  now rewrite request_once_run, H.
Qed.

(** An attempt that fails, whatever the failure, is followed by its backoff
    and by the remaining attempts. *)
Lemma retry_loop_failure (remaining : nat) (lastError : option Error)
  (t : Trace) (e : Thrown) :
  outcome (fetch_count t) = Rejected e ->
  retry_loop browser JSON_parse JSON_stringify formData (S remaining) lastError t
  = retry_loop browser JSON_parse JSON_stringify formData remaining
      (Some (toError e))
      (t ++ request :: backoff (MAX_RETRIES - Z.of_nat remaining))%list.
Proof.
  intros H. cbn [retry_loop].
  unfold bind at 1, try_catch, bind at 1.
  rewrite request_once_run, H.
  unfold on_failure, backoff.
  destruct (MAX_RETRIES - Z.of_nat remaining <? MAX_RETRIES);
    autounfold with async; [now rewrite <- app_assoc | reflexivity].
Qed.

(** The whole loop, by how the three attempts end. *)
Lemma retry_loop_run (lastError : option Error) :
  retry_loop browser JSON_parse JSON_stringify formData 3 lastError []
  = match outcome 0 with
    | Resolved result => ([request], Resolved result)
    | Rejected _ =>
      match outcome 1 with
      | Resolved result => ([request; Sleep 1000; request], Resolved result)
      | Rejected _ =>
        ([request; Sleep 1000; request; Sleep 2000; request],
         match outcome 2 with
         | Resolved result => Resolved result
         | Rejected e =>
           Rejected (ErrorObj (new_Error (exhausted_message (Some (toError e)))))
         end)
      end
    end.
Proof.
  destruct (outcome 0) as [s0|e0] eqn:H0.
  { now rewrite retry_loop_success with (result := s0). }
  rewrite retry_loop_failure with (e := e0) by exact H0.
  destruct (outcome 1) as [s1|e1] eqn:H1.
  { now rewrite retry_loop_success with (result := s1). }
  rewrite retry_loop_failure with (e := e1) by exact H1.
  destruct (outcome 2) as [s2|e2] eqn:H2.
  { now rewrite retry_loop_success with (result := s2). }
  rewrite retry_loop_failure with (e := e2) by exact H2.
  reflexivity.
Qed.

End Attempts.

(** A submission whose image is compressed into [compressed] runs the loop
    on the request built from it. *)
Lemma analyzeImage_run (browser : Browser)
  (JSON_parse : string -> option JSValue) (JSON_stringify : JSValue -> string)
  (imageFile compressed : File) (language : option Language) :
  run (compressImage browser imageFile None None) = ([], Resolved compressed) ->
  run (analyzeImage browser JSON_parse JSON_stringify imageFile language)
  = retry_loop browser JSON_parse JSON_stringify
      (build_formData compressed (default English language)) 3 None [].
Proof.
  unfold run, analyzeImage, bind. now intros ->.
Qed.

(** C6. An image whose longer edge does not exceed the maximum ([maxWidth],
    1024 when omitted) keeps its pixel dimensions: every file [compressImage]
    resolves with has them, and [compressImage] does resolve whenever the
    reader, the canvas and the encoder deliver. *)
Theorem C6_no_upscaling (browser : Browser) (file : File)
  (maxWidth : option Z) (quality : option Q) (w h : Z) :
  pixels file = Some (w, h) ->
  Z.max w h <= default 1024 maxWidth ->
  (forall t t' out,
      compressImage browser file maxWidth quality t = (t', Resolved out) ->
      pixels out = Some (w, h))
  /\ (forall t blob_size,
         reader_error browser = None ->
         canvas_context browser = true ->
         toBlob browser w h "image/jpeg" (default (7 # 10)%Q quality)
         = Some blob_size ->
         exists out,
           compressImage browser file maxWidth quality t = (t, Resolved out)
           /\ pixels out = Some (w, h)).
Proof.
  intros Hp Hle.
  assert (Hrs : resize w h (default 1024 maxWidth) = (w, h)).
  { unfold resize.
    destruct (Z.gtb_spec w h), (Z.gtb_spec w (default 1024 maxWidth)),
      (Z.gtb_spec h (default 1024 maxWidth)); solve [reflexivity | lia]. }
  split.
  - intros t t' out H.
    apply compressImage_resolved_inv in H as (_ & _ & _ & w0 & h0 & Hp0 & Hout).
    rewrite Hp in Hp0. injection Hp0 as <- <-. now rewrite Hout, Hrs.
  - intros t blob_size Hr Hc Hb. eexists. split.
    + apply compressImage_resolves with (w := w) (h := h); try assumption.
      rewrite Hrs. exact Hb.
    + simpl. now rewrite Hrs.
Qed.

Lemma C6_no_upscaling_witness :
  exists out,
    run (compressImage (sample_browser (always (reply 200 "OK" body_ok)) no_translation)
           thumb_gif None None) = ([], Resolved out)
    /\ pixels out = Some (640, 480).
Proof.
  apply (proj2 (C6_no_upscaling
                  (sample_browser (always (reply 200 "OK" body_ok)) no_translation)
                  thumb_gif None None 640 480 eq_refl ltac:(simpl; lia))
           [] 30720); reflexivity.
Defined.

(** C7. An image whose longer edge exceeds the maximum is resolved into a
    file whose longer edge is the maximum exactly and whose other edge is
    [Math.round(shorter * maximum / longer)], within one half of the exact
    quotient; the orientation is kept.  The maximum is an edge length, hence
    not negative. *)
Theorem C7_downscale_to_max_edge (browser : Browser) (file : File)
  (maxWidth : option Z) (quality : option Q) (w h : Z) :
  pixels file = Some (w, h) ->
  0 <= default 1024 maxWidth ->
  default 1024 maxWidth < Z.max w h ->
  (forall t t' out,
      compressImage browser file maxWidth quality t = (t', Resolved out) ->
      exists w' h',
        pixels out = Some (w', h')
        /\ Z.max w' h' = default 1024 maxWidth
        /\ Z.min w' h'
           = Math_round_div (Z.min w h * default 1024 maxWidth) (Z.max w h)
        /\ 2 * Z.abs (Z.min w' h' * Z.max w h - Z.min w h * default 1024 maxWidth)
           <= Z.max w h
        /\ (h < w -> w' = default 1024 maxWidth)
        /\ (w <= h -> h' = default 1024 maxWidth))
  /\ (forall t blob_size,
         reader_error browser = None ->
         canvas_context browser = true ->
         toBlob browser (fst (resize w h (default 1024 maxWidth)))
           (snd (resize w h (default 1024 maxWidth))) "image/jpeg"
           (default (7 # 10)%Q quality) = Some blob_size ->
         exists out,
           compressImage browser file maxWidth quality t = (t, Resolved out)).
Proof.
  intros Hp Hm Hlt. set (m := default 1024 maxWidth) in *.
  split.
  - intros t t' out H.
    apply compressImage_resolved_inv in H as (_ & _ & _ & w0 & h0 & Hp0 & Hout).
    rewrite Hp in Hp0. injection Hp0 as <- <-. fold m in Hout.
    unfold resize in Hout.
    destruct (Z.gtb_spec w h) as [Hwh|Hwh].
    + destruct (Z.gtb_spec w m) as [Hwm|Hwm]; [|lia].
      pose proof (Math_round_div_nearest (h * m) w ltac:(lia)) as Hn.
      pose proof (Math_round_div_le (h * m) w m ltac:(lia) ltac:(nia)) as Hb.
      exists m, (Math_round_div (h * m) w).
      rewrite (Z.max_l w h), (Z.min_r w h) by lia.
      rewrite Z.max_l, Z.min_r by lia.
      repeat split; [assumption | assumption | lia].
    + destruct (Z.gtb_spec h m) as [Hhm|Hhm]; [|lia].
      pose proof (Math_round_div_nearest (w * m) h ltac:(lia)) as Hn.
      pose proof (Math_round_div_le (w * m) h m ltac:(lia) ltac:(nia)) as Hb.
      exists (Math_round_div (w * m) h), m.
      rewrite (Z.max_r w h), (Z.min_l w h) by lia.
      rewrite Z.max_r, Z.min_l by lia.
      repeat split; [assumption | assumption | lia].
  - intros t blob_size Hr Hc Hb. eexists.
    eapply compressImage_resolves with (w := w) (h := h); eassumption.
Qed.

Lemma C7_downscale_to_max_edge_witness :
  exists w' h',
    Some (1024, 768) = Some (w', h')
    /\ Z.max w' h' = 1024
    /\ Z.min w' h' = Math_round_div (3000 * 1024) 4000
    /\ 2 * Z.abs (Z.min w' h' * 4000 - 3000 * 1024) <= 4000
    /\ (3000 < 4000 -> w' = 1024)
    /\ (4000 <= 3000 -> h' = 1024).
Proof.
  exact (proj1 (C7_downscale_to_max_edge
                  (sample_browser (always (reply 200 "OK" body_ok)) no_translation)
                  leaf_png None None 4000 3000 eq_refl
                  ltac:(simpl; lia) ltac:(simpl; lia))
           [] [] _ eq_refl).
Defined.

(** C10. The file [compressImage] resolves with is named after the input: the
    part of the name before its last ['.'] followed by [.jpg] when the name
    has a ['.'], and [.jpg] alone when it has none. *)
Theorem C10_output_file_name (browser : Browser) (file out : File)
  (maxWidth : option Z) (quality : option Q) (t t' : Trace) :
  compressImage browser file maxWidth quality t = (t', Resolved out) ->
  (has_dot (name file) = true ->
   exists p r, name file = p ++ String "." r
               /\ has_dot r = false
               /\ name out = p ++ ".jpg")
  /\ (has_dot (name file) = false -> name out = ".jpg").
Proof.
  intros H.
  apply compressImage_resolved_inv in H as (_ & Hname & _).
  rewrite Hname. split.
  - intros Hd. destruct (has_dot_split _ Hd) as (p & r & Heq & Hr).
    exists p, r. rewrite Heq at 2. now rewrite jpg_name_last_dot.
  - apply jpg_name_no_dot.
Qed.

Lemma C10_output_file_name_witness :
  (exists p r, "leaf.photo.png" = p ++ String "." r
               /\ has_dot r = false
               /\ "leaf.photo.jpg" = p ++ ".jpg")
  /\ ".jpg" = ".jpg".
Proof.
  split.
  - exact (proj1 (C10_output_file_name
                    (sample_browser (always (reply 200 "OK" body_ok)) no_translation)
                    leaf_png _ None None [] [] eq_refl) eq_refl).
  - exact (proj2 (C10_output_file_name
                    (sample_browser (always (reply 200 "OK" body_ok)) no_translation)
                    soil_raw _ None None [] [] eq_refl) eq_refl).
Defined.

(** ** Submission Client *)

(** A first response with a status 400-499 is followed by the first backoff
    delay and by a second request. *)
Lemma client_error_is_retried (browser : Browser)
  (JSON_parse : string -> option JSValue) (JSON_stringify : JSValue -> string)
  (imageFile compressed : File) (language : option Language)
  (r : Response) (body : string) :
  run (compressImage browser imageFile None None) = ([], Resolved compressed) ->
  net browser 0 = Resolved r ->
  client_error_status (status r) = true ->
  text r = Resolved body ->
  exists rest,
    fst (run (analyzeImage browser JSON_parse JSON_stringify imageFile language))
    = (submission compressed language :: Sleep 1000
       :: submission compressed language :: rest)%list.
Proof.
  intros Hc Hr Hs Hb.
  rewrite (analyzeImage_run _ _ _ _ compressed) by exact Hc.
  rewrite retry_loop_run, Hr.
  rewrite (client_error_outcome _ _ r body) by assumption.
  destruct (attempt_outcome _ _ (net browser 1)); eexists; reflexivity.
Qed.

(** C1. A response with a status 400-499 does not end the submission: the
    error thrown for it inside the outer [try] is caught by the outer
    [catch] like any other.  With a webhook that always answers 404, the
    request is sent three times, with both backoff delays, and the error
    raised is the one for exhausted attempts. *)
Theorem C1_status_404_is_retried :
  run (analyzeImage
         (sample_browser (always (reply 404 "Not Found" "no such hook")) no_translation)
         Json.parse Json.stringify leaf_png None)
  = ([leaf_request; Sleep 1000; leaf_request; Sleep 2000; leaf_request],
     Rejected (ErrorObj (new_Error
       "Failed to get a response from the analysis service after 3 attempts. The service may be temporarily unavailable. Last error: Analysis service rejected the request: 404 Not Found - no such hook"))).
Proof.
  vm_compute. reflexivity.
Qed.

(** C2. When the three attempts end in retryable failures, the submission
    rejects once, after three requests, with an error whose message names
    the three attempts and ends with the message of the last failure
    (["Unknown error"] standing for an empty one); for a last failure by
    status, that message is the one built from the status, the status text
    and the body. *)
Theorem C2_exhausted_retries (browser : Browser)
  (JSON_parse : string -> option JSValue) (JSON_stringify : JSValue -> string)
  (imageFile compressed : File) (language : option Language) :
  run (compressImage browser imageFile None None) = ([], Resolved compressed) ->
  retryable_failure (net browser 0) = true ->
  retryable_failure (net browser 1) = true ->
  retryable_failure (net browser 2) = true ->
  exists lastError,
    attempt_outcome JSON_parse JSON_stringify (net browser 2) = Rejected lastError
    /\ run (analyzeImage browser JSON_parse JSON_stringify imageFile language)
       = ([submission compressed language; Sleep 1000;
           submission compressed language; Sleep 2000;
           submission compressed language],
          Rejected (ErrorObj (new_Error
            ("Failed to get a response from the analysis service after 3 attempts. The service may be temporarily unavailable. Last error: "
             ++ or_else (message (toError lastError)) "Unknown error"))))
    /\ (forall r body,
           net browser 2 = Resolved r ->
           ok r = false ->
           text r = Resolved body ->
           message (toError lastError)
           = status_message "Webhook request failed" r body).
Proof.
  intros Hc H0 H1 H2.
  apply (retryable_failure_fails JSON_parse JSON_stringify) in H0, H1.
  pose proof (retryable_failure_fails JSON_parse JSON_stringify _ H2) as H2'.
  unfold attempt_fails in H0, H1, H2'.
  rewrite (analyzeImage_run _ _ _ _ compressed) by exact Hc.
  rewrite retry_loop_run.
  destruct (attempt_outcome _ _ (net browser 0)); [discriminate|].
  destruct (attempt_outcome _ _ (net browser 1)); [discriminate|].
  destruct (attempt_outcome _ _ (net browser 2)) as [|e2] eqn:E2; [discriminate|].
  exists e2. repeat split.
  intros r body Hr Hok Hb. rewrite Hr in E2, H2.
  rewrite (server_error_outcome _ _ r body) in E2; try assumption.
  - now injection E2 as <-.
  - simpl in H2. apply andb_prop in H2 as [Hs _]. now apply negb_true_iff.
Qed.

Lemma C2_exhausted_retries_witness :
  exists lastError,
    attempt_outcome Json.parse Json.stringify (reply 500 "Internal Server Error" "")
    = Rejected lastError
    /\ run (analyzeImage
              (sample_browser (always (reply 500 "Internal Server Error" ""))
                 no_translation)
              Json.parse Json.stringify leaf_png None)
       = ([leaf_request; Sleep 1000; leaf_request; Sleep 2000; leaf_request],
          Rejected (ErrorObj (new_Error
            ("Failed to get a response from the analysis service after 3 attempts. The service may be temporarily unavailable. Last error: "
             ++ or_else (message (toError lastError)) "Unknown error"))))
    /\ (forall r body,
           reply 500 "Internal Server Error" "" = Resolved r ->
           ok r = false ->
           text r = Resolved body ->
           message (toError lastError)
           = status_message "Webhook request failed" r body).
Proof.
  exact (C2_exhausted_retries
           (sample_browser (always (reply 500 "Internal Server Error" ""))
              no_translation)
           Json.parse Json.stringify leaf_png _ None eq_refl eq_refl eq_refl eq_refl).
Defined.

(** C3. After a run of retryable failures the trace is the one of
    [schedule]: every failing attempt [k] below the last is followed by a
    delay of [INITIAL_DELAY_MS * 2^(k-1)] and by attempt [k+1], and nothing
    follows the last attempt.  In particular two statuses 500 followed by a
    status 200 with the body [{"text":"ok"}] give the result ["ok"] after
    delays of 1000 and 2000 milliseconds. *)
Theorem C3_backoff_schedule (browser : Browser)
  (JSON_parse : string -> option JSValue) (JSON_stringify : JSValue -> string)
  (imageFile compressed : File) (language : option Language) :
  run (compressImage browser imageFile None None) = ([], Resolved compressed) ->
  (forall failures : nat,
      (failures <= 3)%nat ->
      (forall i, (i < failures)%nat -> retryable_failure (net browser i) = true) ->
      ((failures < 3)%nat ->
       attempt_fails JSON_parse JSON_stringify (net browser failures) = false) ->
      fst (run (analyzeImage browser JSON_parse JSON_stringify imageFile language))
      = schedule (submission compressed language) 1 failures (failures <? 3)%nat
      /\ delays (fst (run (analyzeImage browser JSON_parse JSON_stringify
                             imageFile language)))
         = map (fun k => INITIAL_DELAY_MS * 2 ^ (Z.of_nat k - 1))
             (seq 1 (Nat.min failures 2)))
  /\ (forall statusText1 body1 statusText2 body2 statusText3,
         JSON_parse body_ok = Some (JObject [("text", JString "ok")]) ->
         net browser 0 = reply 500 statusText1 body1 ->
         net browser 1 = reply 500 statusText2 body2 ->
         net browser 2 = reply 200 statusText3 body_ok ->
         run (analyzeImage browser JSON_parse JSON_stringify imageFile language)
         = ([submission compressed language; Sleep 1000;
             submission compressed language; Sleep 2000;
             submission compressed language],
            Resolved "ok")).
Proof.
  intros Hc.
  rewrite (analyzeImage_run _ _ _ _ compressed) by exact Hc.
  rewrite retry_loop_run. split.
  - intros failures Hle Hfail Hlast.
    assert (Hf : forall i, (i < failures)%nat ->
                 attempt_fails JSON_parse JSON_stringify (net browser i) = true)
      by (intros i Hi; apply retryable_failure_fails, Hfail, Hi).
    unfold attempt_fails in Hf, Hlast.
    destruct failures as [|[|[|[|]]]]; [| | | |lia].
    + specialize (Hlast ltac:(lia)).
      destruct (attempt_outcome _ _ (net browser 0)); [|discriminate].
      split; reflexivity.
    + specialize (Hlast ltac:(lia)).
      pose proof (Hf 0%nat ltac:(lia)) as F0.
      destruct (attempt_outcome _ _ (net browser 0)); [discriminate|].
      destruct (attempt_outcome _ _ (net browser 1)); [|discriminate].
      split; reflexivity.
    + specialize (Hlast ltac:(lia)).
      pose proof (Hf 0%nat ltac:(lia)) as F0.
      pose proof (Hf 1%nat ltac:(lia)) as F1.
      destruct (attempt_outcome _ _ (net browser 0)); [discriminate|].
      destruct (attempt_outcome _ _ (net browser 1)); [discriminate|].
      split; reflexivity.
    + pose proof (Hf 0%nat ltac:(lia)) as F0.
      pose proof (Hf 1%nat ltac:(lia)) as F1.
      destruct (attempt_outcome _ _ (net browser 0)); [discriminate|].
      destruct (attempt_outcome _ _ (net browser 1)); [discriminate|].
      split; reflexivity.
  - intros st1 b1 st2 b2 st3 Hparse -> -> ->. unfold reply.
    rewrite (server_error_outcome _ _ _ b1) by reflexivity.
    rewrite (server_error_outcome _ _ _ b2) by reflexivity.
    rewrite (success_outcome _ _ _ body_ok) by reflexivity.
    now rewrite Hparse.
Qed.

Lemma C3_backoff_schedule_witness :
  (fst (run (analyzeImage (sample_browser third_time_lucky no_translation)
               Json.parse Json.stringify leaf_png None))
   = schedule leaf_request 1 2 true
   /\ delays (fst (run (analyzeImage (sample_browser third_time_lucky no_translation)
                          Json.parse Json.stringify leaf_png None)))
      = [INITIAL_DELAY_MS * 2 ^ 0; INITIAL_DELAY_MS * 2 ^ 1])
  /\ run (analyzeImage (sample_browser third_time_lucky no_translation)
            Json.parse Json.stringify leaf_png None)
     = ([leaf_request; Sleep 1000; leaf_request; Sleep 2000; leaf_request],
        Resolved "ok").
Proof.
  pose proof (C3_backoff_schedule (sample_browser third_time_lucky no_translation)
                Json.parse Json.stringify leaf_png _ None eq_refl) as [Hall Hok].
  split.
  - apply (Hall 2%nat).
    + lia.
    + intros [|[|i]] Hi; [reflexivity | reflexivity | lia].
    + reflexivity.
  - exact (Hok _ _ _ _ _ eq_refl eq_refl eq_refl eq_refl).
Defined.

(** C4. A response with a status 200-299 and an empty body makes its attempt
    fail with the error for an empty response, never resolve with the empty
    body: when it answers the first or the second attempt, the backoff delay
    and the next request follow; when it answers the third, the submission
    rejects with the error for exhausted attempts. *)
Theorem C4_empty_body_is_retried (browser : Browser)
  (JSON_parse : string -> option JSValue) (JSON_stringify : JSValue -> string)
  (imageFile compressed : File) (language : option Language)
  (k : nat) (r : Response) :
  run (compressImage browser imageFile None None) = ([], Resolved compressed) ->
  (k < 3)%nat ->
  (forall i, (i < k)%nat ->
             attempt_fails JSON_parse JSON_stringify (net browser i) = true) ->
  net browser k = Resolved r ->
  ok r = true ->
  text r = Resolved "" ->
  attempt_outcome JSON_parse JSON_stringify (net browser k)
  = Rejected (ErrorObj (new_Error
      "The analysis service returned a successful but empty response."))
  /\ ((k < 2)%nat ->
      nth_error (fst (run (analyzeImage browser JSON_parse JSON_stringify
                             imageFile language))) (2 * k + 1)
      = Some (Sleep (INITIAL_DELAY_MS * 2 ^ Z.of_nat k))
      /\ nth_error (fst (run (analyzeImage browser JSON_parse JSON_stringify
                                imageFile language))) (2 * k + 2)
         = Some (submission compressed language))
  /\ (k = 2%nat ->
      run (analyzeImage browser JSON_parse JSON_stringify imageFile language)
      = ([submission compressed language; Sleep 1000;
          submission compressed language; Sleep 2000;
          submission compressed language],
         Rejected (ErrorObj (new_Error
           "Failed to get a response from the analysis service after 3 attempts. The service may be temporarily unavailable. Last error: The analysis service returned a successful but empty response.")))).
Proof.
  intros Hc Hk Hf Hr Hok Hb.
  pose proof (empty_body_outcome JSON_parse JSON_stringify r Hok Hb) as He.
  rewrite <- Hr in He. split; [exact He|].
  rewrite (analyzeImage_run _ _ _ _ compressed) by exact Hc.
  rewrite retry_loop_run. unfold attempt_fails in Hf.
  destruct k as [|[|[|]]]; [| | |lia].
  - rewrite He. split; [intros _|discriminate].
    destruct (attempt_outcome _ _ (net browser 1)); split; reflexivity.
  - pose proof (Hf 0%nat ltac:(lia)) as F0.
    destruct (attempt_outcome _ _ (net browser 0)); [discriminate|].
    rewrite He. split; [intros _|discriminate]. split; reflexivity.
  - pose proof (Hf 0%nat ltac:(lia)) as F0.
    pose proof (Hf 1%nat ltac:(lia)) as F1.
    destruct (attempt_outcome _ _ (net browser 0)); [discriminate|].
    destruct (attempt_outcome _ _ (net browser 1)); [discriminate|].
    rewrite He. split; [lia|]. intros _. reflexivity.
Qed.

Lemma C4_empty_body_is_retried_witness :
  attempt_outcome Json.parse Json.stringify (reply 200 "OK" "")
  = Rejected (ErrorObj (new_Error
      "The analysis service returned a successful but empty response."))
  /\ nth_error (fst (run (analyzeImage
                            (sample_browser (always (reply 200 "OK" "")) no_translation)
                            Json.parse Json.stringify leaf_png None))) 1
     = Some (Sleep (INITIAL_DELAY_MS * 2 ^ 0))
  /\ nth_error (fst (run (analyzeImage
                            (sample_browser (always (reply 200 "OK" "")) no_translation)
                            Json.parse Json.stringify leaf_png None))) 2
     = Some leaf_request.
Proof.
  pose proof (C4_empty_body_is_retried
                (sample_browser (always (reply 200 "OK" "")) no_translation)
                Json.parse Json.stringify leaf_png _ None 0 _
                eq_refl ltac:(lia) ltac:(intros i Hi; lia)
                eq_refl eq_refl eq_refl) as (Hout & Hnext & _).
  split; [exact Hout | exact (Hnext ltac:(lia))].
Defined.

(** C5. A response with a status 200-299 and a body that is not empty ends
    the submission with a result: the [text] member when the body parses to
    an object that has one of type string; the body itself when it does not
    parse; and otherwise the diagnostic text followed by the serialized
    value. *)
Theorem C5_success_result (browser : Browser)
  (JSON_parse : string -> option JSValue) (JSON_stringify : JSValue -> string)
  (imageFile compressed : File) (language : option Language)
  (k : nat) (r : Response) (body : string) :
  run (compressImage browser imageFile None None) = ([], Resolved compressed) ->
  (k < 3)%nat ->
  (forall i, (i < k)%nat ->
             attempt_fails JSON_parse JSON_stringify (net browser i) = true) ->
  net browser k = Resolved r ->
  ok r = true ->
  text r = Resolved body ->
  body <> "" ->
  (forall members analysisText,
      JSON_parse body = Some (JObject members) ->
      get_member "text" members = Some (JString analysisText) ->
      snd (run (analyzeImage browser JSON_parse JSON_stringify imageFile language))
      = Resolved analysisText)
  /\ (JSON_parse body = None ->
      snd (run (analyzeImage browser JSON_parse JSON_stringify imageFile language))
      = Resolved body)
  /\ (forall webhookResponse,
         JSON_parse body = Some webhookResponse ->
         (forall analysisText,
             optional_text webhookResponse <> Some (JString analysisText)) ->
         snd (run (analyzeImage browser JSON_parse JSON_stringify imageFile language))
         = Resolved
             ("Could not find analysis text in the response. The service returned:"
              ++ newline ++ newline ++ JSON_stringify webhookResponse)).
Proof.
  intros Hc Hk Hf Hr Hok Hb Hne.
  assert (He : is_empty body = false) by (destruct body; [congruence|reflexivity]).
  pose proof (success_outcome JSON_parse JSON_stringify r body Hok Hb He) as Hs.
  rewrite <- Hr in Hs.
  assert (Hrun :
    snd (run (analyzeImage browser JSON_parse JSON_stringify imageFile language))
    = attempt_outcome JSON_parse JSON_stringify (net browser k)).
  { rewrite (analyzeImage_run _ _ _ _ compressed) by exact Hc.
    rewrite retry_loop_run. unfold attempt_fails in Hf.
    destruct k as [|[|[|]]]; [| | |lia].
    - rewrite Hs. reflexivity.
    - pose proof (Hf 0%nat ltac:(lia)) as F0.
      destruct (attempt_outcome _ _ (net browser 0)); [discriminate|].
      rewrite Hs. reflexivity.
    - pose proof (Hf 0%nat ltac:(lia)) as F0.
      pose proof (Hf 1%nat ltac:(lia)) as F1.
      destruct (attempt_outcome _ _ (net browser 0)); [discriminate|].
      destruct (attempt_outcome _ _ (net browser 1)); [discriminate|].
      rewrite Hs. reflexivity. }
  rewrite Hrun, Hs. repeat split.
  - intros members analysisText -> Ht. simpl. now rewrite Ht.
  - now intros ->.
  - intros v -> Hv. destruct (optional_text v) as [[]|]; try reflexivity.
    now contradiction (Hv s).
Qed.

Lemma C5_success_result_witness :
  snd (run (analyzeImage (sample_browser (always (reply 200 "OK" body_ok)) no_translation)
              Json.parse Json.stringify leaf_png None))
  = Resolved "ok"
  /\ snd (run (analyzeImage
                 (sample_browser (always (reply 200 "OK" plain_body)) no_translation)
                 Json.parse Json.stringify leaf_png None))
     = Resolved "plain text report"
  /\ snd (run (analyzeImage
                 (sample_browser (always (reply 200 "OK" body_other)) no_translation)
                 Json.parse Json.stringify leaf_png None))
     = Resolved
         ("Could not find analysis text in the response. The service returned:"
          ++ newline ++ newline
          ++ "{" ++ newline ++ "  " ++ quoted "result" ++ ": " ++ quoted "x"
          ++ newline ++ "}").
Proof.
  split; [|split].
  - refine (proj1 (C5_success_result
                     (sample_browser (always (reply 200 "OK" body_ok)) no_translation)
                     Json.parse Json.stringify leaf_png _ None 0 _ body_ok
                     eq_refl ltac:(lia) ltac:(intros i Hi; lia)
                     eq_refl eq_refl eq_refl ltac:(discriminate))
              [("text", JString "ok")] "ok" eq_refl eq_refl).
  - refine (proj1 (proj2 (C5_success_result
                     (sample_browser (always (reply 200 "OK" plain_body)) no_translation)
                     Json.parse Json.stringify leaf_png _ None 0 _ plain_body
                     eq_refl ltac:(lia) ltac:(intros i Hi; lia)
                     eq_refl eq_refl eq_refl ltac:(discriminate)))
              eq_refl).
  - refine (proj2 (proj2 (C5_success_result
                     (sample_browser (always (reply 200 "OK" body_other)) no_translation)
                     Json.parse Json.stringify leaf_png _ None 0 _ body_other
                     eq_refl ltac:(lia) ltac:(intros i Hi; lia)
                     eq_refl eq_refl eq_refl ltac:(discriminate)))
              (JObject [("result", JString "x")]) eq_refl
              ltac:(intros s; discriminate)).
Defined.

(** ** Translation Adapter *)

(** C8. For the empty text [translateText] resolves at once with the empty
    string: the trace is unchanged, and no request leaves the browser. *)
Theorem C8_empty_text_short_circuit (browser : Browser) (targetLanguage : Language) :
  (forall t, translateText browser "" targetLanguage t = (t, Resolved ""))
  /\ network_calls (fst (run (translateText browser "" targetLanguage))) = 0%nat.
Proof.
  split; reflexivity.
Qed.

(** C9. For a text that is not empty [translateText] always resolves: with
    the text itself when the client cannot be built, when the request
    rejects, or when the completion is missing or empty; and with the
    completion otherwise. *)
Theorem C9_translation_never_raises (browser : Browser) (text : string)
  (targetLanguage : Language) (t : Trace) :
  text <> "" ->
  exists t' result,
    translateText browser text targetLanguage t = (t', Resolved result)
    /\ (forall e, genai_new browser = Some e -> result = text)
    /\ (forall e,
           genai_new browser = None ->
           generateContent browser translation_model
             (translation_prompt text targetLanguage) = Rejected e ->
           result = text)
    /\ (forall response,
           genai_new browser = None ->
           generateContent browser translation_model
             (translation_prompt text targetLanguage) = Resolved response ->
           gen_text response = None \/ gen_text response = Some "" ->
           result = text)
    /\ (forall response translatedText,
           genai_new browser = None ->
           generateContent browser translation_model
             (translation_prompt text targetLanguage) = Resolved response ->
           gen_text response = Some translatedText ->
           translatedText <> "" ->
           result = translatedText).
Proof.
  intros Hne. unfold translateText, new_GoogleGenAI, models_generateContent.
  destruct text as [|c text']; [congruence|]. cbn [is_empty].
  set (text := String c text') in *.
  autounfold with async.
  destruct (genai_new browser) as [e0|].
  { eexists _, _. split; [reflexivity|]. repeat split; congruence. }
  destruct (generateContent browser _ _) as [[[translated|]]|e1].
  - destruct translated as [|d translated'].
    + eexists _, _. split; [reflexivity|]. repeat split; try congruence.
      intros response s _ [= <-] [= <-]. congruence.
    + eexists _, _. split; [reflexivity|]. repeat split; try congruence.
      * intros response _ [= <-] [H|H]; discriminate H.
      * intros response s _ [= <-] [= <-] _. reflexivity.
  - eexists _, _. split; [reflexivity|]. repeat split; try congruence.
    intros response s _ [= <-] H. discriminate H.
  - eexists _, _. split; [reflexivity|]. repeat split; congruence.
Qed.

Lemma C9_translation_never_raises_witness :
  (exists t' result,
      translateText
        (sample_browser (always (reply 200 "OK" body_ok))
           (Resolved {| gen_text := Some "namaste" |}))
        "hello" Hindi [] = (t', Resolved result)
      /\ result = "namaste")
  /\ (exists t' result,
         translateText
           (sample_browser (always (reply 200 "OK" body_ok))
              (Rejected (ErrorObj (new_Error "503 Service Unavailable"))))
           "hello" Hindi [] = (t', Resolved result)
         /\ result = "hello").
Proof.
  split.
  - destruct (C9_translation_never_raises
                (sample_browser (always (reply 200 "OK" body_ok))
                   (Resolved {| gen_text := Some "namaste" |}))
                "hello" Hindi [] ltac:(discriminate))
      as (t' & result & Hrun & _ & _ & _ & Hres).
    exists t', result. split; [exact Hrun|].
    exact (Hres _ "namaste" eq_refl eq_refl eq_refl ltac:(discriminate)).
  - destruct (C9_translation_never_raises
                (sample_browser (always (reply 200 "OK" body_ok))
                   (Rejected (ErrorObj (new_Error "503 Service Unavailable"))))
                "hello" Hindi [] ltac:(discriminate))
      as (t' & result & Hrun & _ & Hrej & _).
    exists t', result. split; [exact Hrun|].
    exact (Hrej _ eq_refl eq_refl).
Defined.

(** * Further properties *)

(** ** Image Normalizer: failures, bounds, repetition *)

Lemma Math_round_div_nonneg (a b : Z) :
  0 <= a -> 0 < b -> 0 <= Math_round_div a b.
Proof.
  intros Ha Hb. unfold Math_round_div. apply Z.div_pos; lia.
Qed.

Lemma Math_round_div_exact (k b : Z) :
  0 < b -> Math_round_div (k * b) b = k.
Proof.
  intros Hb. unfold Math_round_div.
  symmetry. apply (Z.div_unique_pos _ _ _ b); lia.
Qed.

(** The size computed for a size that [resize] produced is that size. *)
Lemma resize_idempotent (w h m : Z) :
  0 <= m ->
  resize (fst (resize w h m)) (snd (resize w h m)) m = resize w h m.
Proof.
  intros Hm. unfold resize at 2 3 4.
  destruct (Z.gtb_spec w h) as [Hwh|Hwh].
  - destruct (Z.gtb_spec w m) as [Hwm|Hwm]; cbn [fst snd]; unfold resize.
    + pose proof (Math_round_div_le (h * m) w m ltac:(lia) ltac:(nia)).
      destruct (Z.gtb_spec m (Math_round_div (h * m) w)),
        (Z.gtb_spec m m), (Z.gtb_spec (Math_round_div (h * m) w) m);
        solve [reflexivity | lia].
    + destruct (Z.gtb_spec w h), (Z.gtb_spec w m); solve [reflexivity | lia].
  - destruct (Z.gtb_spec h m) as [Hhm|Hhm]; cbn [fst snd]; unfold resize.
    + pose proof (Math_round_div_le (w * m) h m ltac:(lia) ltac:(nia)).
      destruct (Z.gtb_spec (Math_round_div (w * m) h) m),
        (Z.gtb_spec m m); solve [reflexivity | lia].
    + destruct (Z.gtb_spec w h), (Z.gtb_spec h m); solve [reflexivity | lia].
Qed.

Lemma jpg_name_idempotent (file_name : string) :
  jpg_name (jpg_name file_name) = jpg_name file_name.
Proof.
  unfold jpg_name at 2 3.
  now rewrite (jpg_name_last_dot _ "jpg").
Qed.

(** X1. [compressImage] resolves exactly when the file reader succeeds, the
    file decodes as an image, the canvas gives a 2D context and the encoder
    returns a blob for the canvas of the computed size; it never touches the
    trace. *)
Theorem compressImage_resolves_iff (browser : Browser) (file : File)
  (maxWidth : option Z) (quality : option Q) (t : Trace) :
  ((exists out, compressImage browser file maxWidth quality t = (t, Resolved out))
   <-> (reader_error browser = None
        /\ canvas_context browser = true
        /\ exists w h,
            pixels file = Some (w, h)
            /\ toBlob browser (fst (resize w h (default 1024 maxWidth)))
                 (snd (resize w h (default 1024 maxWidth))) "image/jpeg"
                 (default (7 # 10)%Q quality) <> None))
  /\ fst (compressImage browser file maxWidth quality t) = t.
Proof.
  split; [split|].
  - intros [out H]. unfold compressImage in H.
    destruct (reader_error browser); [discriminate|].
    destruct (pixels file) as [[w h]|]; [|discriminate].
    destruct (resize w h (default 1024 maxWidth)) as [w' h'] eqn:Hrs.
    destruct (canvas_context browser); [|discriminate]. simpl in H.
    destruct (toBlob browser w' h' "image/jpeg" _) eqn:Hb; [|discriminate].
    repeat split. exists w, h. split; [reflexivity|].
    rewrite Hrs. simpl. congruence.
  - intros (Hr & Hc & w & h & Hp & Hb).
    destruct (toBlob browser _ _ _ _) as [blob_size|] eqn:Hblob; [|congruence].
    eexists. eapply compressImage_resolves; eassumption.
  - unfold compressImage.
    destruct (reader_error browser); [reflexivity|].
    destruct (pixels file) as [[w h]|]; [|reflexivity].
    destruct (resize w h (default 1024 maxWidth)) as [w' h'].
    destruct (canvas_context browser); [|reflexivity]. simpl.
    destruct (toBlob browser w' h' "image/jpeg" _); reflexivity.
Qed.

(** X2. The rejection of [compressImage] names the first facility that
    fails: the reader's error, else the image's error event, else the error
    for the missing canvas context, else the error for the missing blob. *)
Theorem compressImage_rejections (browser : Browser) (file : File)
  (maxWidth : option Z) (quality : option Q) (t : Trace) :
  (forall e, reader_error browser = Some e ->
             compressImage browser file maxWidth quality t = (t, Rejected e))
  /\ (reader_error browser = None ->
      pixels file = None ->
      compressImage browser file maxWidth quality t
      = (t, Rejected (image_error browser)))
  /\ (forall w h,
         reader_error browser = None ->
         pixels file = Some (w, h) ->
         canvas_context browser = false ->
         compressImage browser file maxWidth quality t
         = (t, Rejected (ErrorObj (new_Error "Could not get canvas context"))))
  /\ (forall w h,
         reader_error browser = None ->
         pixels file = Some (w, h) ->
         canvas_context browser = true ->
         toBlob browser (fst (resize w h (default 1024 maxWidth)))
           (snd (resize w h (default 1024 maxWidth))) "image/jpeg"
           (default (7 # 10)%Q quality) = None ->
         compressImage browser file maxWidth quality t
         = (t, Rejected (ErrorObj (new_Error "Canvas to Blob conversion failed")))).
Proof.
  unfold compressImage. split; [|split; [|split]].
  - now intros e ->.
  - now intros -> ->.
  - intros w h -> -> ->.
    now destruct (resize w h (default 1024 maxWidth)).
  - intros w h -> -> -> Hb.
    destruct (resize w h (default 1024 maxWidth)) as [w' h'].
    simpl in *. now rewrite Hb.
Qed.

Lemma compressImage_rejections_witness :
  run (compressImage no_canvas_browser leaf_png None None)
  = ([], Rejected (ErrorObj (new_Error "Could not get canvas context")))
  /\ run (compressImage
            (sample_browser (always (reply 200 "OK" body_ok)) no_translation)
            notes_txt None None)
     = ([], Rejected (OtherValue "[object Event]")).
Proof.
  split.
  - exact (proj1 (proj2 (proj2 (compressImage_rejections
             no_canvas_browser leaf_png None None [])))
             4000 3000 eq_refl eq_refl eq_refl).
  - exact (proj1 (proj2 (compressImage_rejections
             (sample_browser (always (reply 200 "OK" body_ok)) no_translation)
             notes_txt None None []))
             eq_refl eq_refl).
Defined.

(** X3. For an image with a width and a height that are not negative and a
    maximum that is not negative, the file [compressImage] resolves with is
    never larger than the image in either dimension, never exceeds the
    maximum in either dimension, has no negative dimension, and lies the
    same way round as the image. *)
Theorem compressImage_never_enlarges (browser : Browser) (file out : File)
  (maxWidth : option Z) (quality : option Q) (w h : Z) (t t' : Trace) :
  pixels file = Some (w, h) ->
  0 <= w -> 0 <= h -> 0 <= default 1024 maxWidth ->
  compressImage browser file maxWidth quality t = (t', Resolved out) ->
  exists w' h',
    pixels out = Some (w', h')
    /\ 0 <= w' <= w /\ 0 <= h' <= h
    /\ w' <= default 1024 maxWidth /\ h' <= default 1024 maxWidth
    /\ (h <= w -> h' <= w') /\ (w <= h -> w' <= h').
Proof.
  intros Hp Hw Hh Hm H. set (m := default 1024 maxWidth) in *.
  apply compressImage_resolved_inv in H as (_ & _ & _ & w0 & h0 & Hp0 & Hout).
  rewrite Hp in Hp0. injection Hp0 as <- <-. fold m in Hout.
  unfold resize in Hout.
  destruct (Z.gtb_spec w h) as [Hwh|Hwh].
  - destruct (Z.gtb_spec w m) as [Hwm|Hwm].
    + pose proof (Math_round_div_le (h * m) w m ltac:(lia) ltac:(nia)) as B1.
      pose proof (Math_round_div_le (h * m) w h ltac:(lia) ltac:(nia)) as B2.
      pose proof (Math_round_div_nonneg (h * m) w ltac:(nia) ltac:(lia)) as B3.
      exists m, (Math_round_div (h * m) w). repeat split; try assumption; lia.
    + exists w, h. repeat split; try assumption; lia.
  - destruct (Z.gtb_spec h m) as [Hhm|Hhm].
    + pose proof (Math_round_div_le (w * m) h m ltac:(lia) ltac:(nia)) as B1.
      pose proof (Math_round_div_le (w * m) h w ltac:(lia) ltac:(nia)) as B2.
      pose proof (Math_round_div_nonneg (w * m) h ltac:(nia) ltac:(lia)) as B3.
      exists (Math_round_div (w * m) h), m. repeat split; try assumption; try lia.
      intros Hhw. assert (w = h) as -> by lia.
      rewrite Z.mul_comm, Math_round_div_exact by lia. lia.
    + exists w, h. repeat split; try assumption; lia.
Qed.

Lemma compressImage_never_enlarges_witness :
  exists w' h',
    Some (1024, 768) = Some (w', h')
    /\ 0 <= w' <= 4000 /\ 0 <= h' <= 3000
    /\ w' <= 1024 /\ h' <= 1024
    /\ (3000 <= 4000 -> h' <= w') /\ (4000 <= 3000 -> w' <= h').
Proof.
  exact (compressImage_never_enlarges
           (sample_browser (always (reply 200 "OK" body_ok)) no_translation)
           leaf_png _ None None 4000 3000 [] [] eq_refl
           ltac:(lia) ltac:(lia) ltac:(simpl; lia) eq_refl).
Defined.

(** X4. Compressing a file that [compressImage] produced, with the same
    maximum, changes neither its name nor its type nor its pixel dimensions,
    in whatever browser and at whatever quality. *)
Theorem compressImage_twice (browser browser' : Browser) (file out out' : File)
  (maxWidth : option Z) (quality quality' : option Q) (t t' u u' : Trace) :
  0 <= default 1024 maxWidth ->
  compressImage browser file maxWidth quality t = (t', Resolved out) ->
  compressImage browser' out maxWidth quality' u = (u', Resolved out') ->
  name out' = name out /\ type out' = type out /\ pixels out' = pixels out.
Proof.
  intros Hm H H'.
  apply compressImage_resolved_inv in H as (_ & Hn & Ht & w & h & _ & Hp).
  apply compressImage_resolved_inv in H' as (_ & Hn' & Ht' & w' & h' & Hq & Hp').
  rewrite Hn', Hn, Ht', Ht, Hp', Hp. repeat split.
  - apply jpg_name_idempotent.
  - rewrite Hp in Hq. injection Hq as Hq.
    pose proof (resize_idempotent w h _ Hm) as Hi.
    rewrite Hq in Hi. cbn [fst snd] in Hi. now rewrite Hi, Hq.
Qed.

Lemma compressImage_twice_witness :
  "leaf.photo.jpg" = "leaf.photo.jpg"
  /\ "image/jpeg" = "image/jpeg"
  /\ Some (1024, 768) = Some (1024, 768).
Proof.
  exact (compressImage_twice
           (sample_browser (always (reply 200 "OK" body_ok)) no_translation)
           (sample_browser (always (reply 500 "Down" "")) no_translation)
           leaf_png _ _ None None (Some (1 # 2)%Q) [] [] [] []
           ltac:(simpl; lia) eq_refl eq_refl).
Defined.

(** X5. For an image of positive width and height and a positive maximum:
    when the width exceeds twice the height times the maximum (or the height
    twice the width times the maximum), the short side of the canvas is
    rounded down to zero pixels, and [compressImage] settles as the encoder
    answers for that empty canvas. *)
Theorem compressImage_flattens_thin_image (browser : Browser) (file : File)
  (maxWidth : option Z) (quality : option Q) (w h : Z) (t : Trace) :
  reader_error browser = None ->
  canvas_context browser = true ->
  pixels file = Some (w, h) ->
  0 < default 1024 maxWidth ->
  0 < w -> 0 < h ->
  (2 * h * default 1024 maxWidth < w ->
   compressImage browser file maxWidth quality t
   = (t, match toBlob browser (default 1024 maxWidth) 0 "image/jpeg"
                 (default (7 # 10)%Q quality) with
         | None => Rejected (ErrorObj (new_Error "Canvas to Blob conversion failed"))
         | Some blob_size =>
           Resolved {| name := jpg_name (name file); type := "image/jpeg";
                       size := blob_size; lastModified := Date_now browser;
                       pixels := Some (default 1024 maxWidth, 0) |}
         end))
  /\ (2 * w * default 1024 maxWidth < h ->
      compressImage browser file maxWidth quality t
      = (t, match toBlob browser 0 (default 1024 maxWidth) "image/jpeg"
                    (default (7 # 10)%Q quality) with
            | None => Rejected (ErrorObj (new_Error "Canvas to Blob conversion failed"))
            | Some blob_size =>
              Resolved {| name := jpg_name (name file); type := "image/jpeg";
                          size := blob_size; lastModified := Date_now browser;
                          pixels := Some (0, default 1024 maxWidth) |}
            end)).
Proof.
  intros Hr Hc Hp Hm Hw Hh. set (m := default 1024 maxWidth) in *.
  assert (Hzero : forall a b, 0 < a -> 2 * a * m < b -> Math_round_div (a * m) b = 0).
  { intros a b Ha Hab. unfold Math_round_div. apply Z.div_small. nia. }
  assert (Hlong : forall a b, 0 < a -> 2 * a * m < b -> a < b /\ m < b).
  { clearbody m. intros a b Ha Hab.
    assert (0 <= (a - 1) * m) by (apply Z.mul_nonneg_nonneg; lia).
    assert (0 <= a * (m - 1)) by (apply Z.mul_nonneg_nonneg; lia).
    lia. }
  split; intros Hthin; unfold compressImage; fold m; rewrite Hr, Hp, Hc;
    unfold resize.
  - destruct (Hlong h w Hh Hthin).
    destruct (Z.gtb_spec w h); [|lia].
    destruct (Z.gtb_spec w m); [|lia].
    rewrite Hzero by assumption. simpl.
    destruct (toBlob browser m 0 "image/jpeg" _); reflexivity.
  - destruct (Hlong w h Hw Hthin).
    destruct (Z.gtb_spec w h); [lia|].
    destruct (Z.gtb_spec h m); [|lia].
    rewrite Hzero by assumption. simpl.
    destruct (toBlob browser 0 m "image/jpeg" _); reflexivity.
Qed.

Lemma compressImage_flattens_thin_image_witness :
  run (compressImage
         (sample_browser (always (reply 200 "OK" body_ok)) no_translation)
         strip_png (Some 1000) None)
  = ([], Resolved {| name := "strip.jpg"; type := "image/jpeg"; size := 0;
                     lastModified := 1700000000000;
                     pixels := Some (1000, 0) |}).
Proof.
  exact (proj1 (compressImage_flattens_thin_image
                  (sample_browser (always (reply 200 "OK" body_ok)) no_translation)
                  strip_png (Some 1000) None 5000 2 [] eq_refl eq_refl eq_refl
                  ltac:(simpl; lia) ltac:(lia) ltac:(lia))
           ltac:(simpl; lia)).
Defined.

(** ** Submission Client: what a submission does and never does *)

(** A result comes only from a response with a status 200-299 and a body
    that is not empty. *)
Lemma attempt_outcome_resolved_inv (JSON_parse : string -> option JSValue)
  (JSON_stringify : JSValue -> string) (o : Settled Response) (result : string) :
  attempt_outcome JSON_parse JSON_stringify o = Resolved result ->
  exists r body,
    o = Resolved r /\ ok r = true /\ text r = Resolved body /\ body <> ""
    /\ attempt_outcome JSON_parse JSON_stringify o
       = Resolved
           match JSON_parse body with
           | None => body
           | Some webhookResponse =>
             match optional_text webhookResponse with
             | Some (JString analysisText) => analysisText
             | _ => "Could not find analysis text in the response. The service returned:"
                    ++ newline ++ newline ++ JSON_stringify webhookResponse
             end
           end.
Proof.
  intros H. destruct o as [r|e]; [|discriminate].
  destruct (client_error_status (status r)) eqn:Hs.
  { destruct (text r) as [body|e] eqn:Hb.
    - rewrite (client_error_outcome _ _ r body) in H by assumption. discriminate.
    - unfold attempt_outcome, handle_response in H.
      autounfold with async in H. rewrite Hb in H.
      destruct (_ && _); [|destruct (negb _)]; discriminate. }
  destruct (text r) as [body|e] eqn:Hb.
  - destruct (ok r) eqn:Hok.
    + destruct body as [|c body'].
      * rewrite (empty_body_outcome _ _ r) in H by assumption. discriminate.
      * exists r, (String c body'). repeat split; try assumption; try discriminate.
        now apply success_outcome.
    + rewrite (server_error_outcome _ _ r body) in H by assumption. discriminate.
  - unfold attempt_outcome, handle_response in H.
    autounfold with async in H. rewrite Hb in H.
    destruct (_ && _); [|destruct (negb _)]; discriminate.
Qed.

(** X6. When the compression of the image rejects, the submission rejects
    with the same value at once: no request is sent and nothing is retried. *)
Theorem analyzeImage_compression_fails_fast (browser : Browser)
  (JSON_parse : string -> option JSValue) (JSON_stringify : JSValue -> string)
  (imageFile : File) (language : option Language) (e : Thrown) (t t' : Trace) :
  compressImage browser imageFile None None t = (t', Rejected e) ->
  analyzeImage browser JSON_parse JSON_stringify imageFile language t
  = (t, Rejected e).
Proof.
  intros H.
  pose proof (proj2 (compressImage_resolves_iff browser imageFile None None t)) as Ht.
  rewrite H in Ht. simpl in Ht. subst t'.
  unfold analyzeImage, bind. now rewrite H.
Qed.

Lemma analyzeImage_compression_fails_fast_witness :
  run (analyzeImage
         (sample_browser (always (reply 200 "OK" body_ok)) no_translation)
         Json.parse Json.stringify notes_txt None)
  = ([], Rejected (OtherValue "[object Event]")).
Proof.
  exact (analyzeImage_compression_fails_fast
           (sample_browser (always (reply 200 "OK" body_ok)) no_translation)
           Json.parse Json.stringify notes_txt None _ [] [] eq_refl).
Defined.

(** X7. Whatever the webhook answers, a submission whose image compresses
    sends at least one and at most three requests, all of them the same
    [POST] of the compressed file and the language, and sleeps for 1000 or
    2000 milliseconds between them and for no more than 3000 in all. *)
Theorem analyzeImage_bounded_requests (browser : Browser)
  (JSON_parse : string -> option JSValue) (JSON_stringify : JSValue -> string)
  (imageFile compressed : File) (language : option Language) :
  run (compressImage browser imageFile None None) = ([], Resolved compressed) ->
  (1 <= fetch_count
          (fst (run (analyzeImage browser JSON_parse JSON_stringify
                       imageFile language))) <= 3)%nat
  /\ Forall (fun ev => ev = submission compressed language
                       \/ ev = Sleep 1000 \/ ev = Sleep 2000)
       (fst (run (analyzeImage browser JSON_parse JSON_stringify imageFile language)))
  /\ fold_right Z.add 0
       (delays (fst (run (analyzeImage browser JSON_parse JSON_stringify
                            imageFile language)))) <= 3000.
Proof.
  intros Hc.
  rewrite (analyzeImage_run _ _ _ _ compressed) by exact Hc.
  rewrite retry_loop_run. fold (submission compressed language).
  destruct (attempt_outcome _ _ (net browser 0));
    [|destruct (attempt_outcome _ _ (net browser 1))];
    (split; [cbn; lia | split; [|cbn; lia]]);
    repeat (apply Forall_cons; [auto|]); apply Forall_nil.
Qed.

Lemma analyzeImage_bounded_requests_witness :
  (1 <= fetch_count
          (fst (run (analyzeImage (sample_browser third_time_lucky no_translation)
                       Json.parse Json.stringify leaf_png None))) <= 3)%nat
  /\ Forall (fun ev => ev = leaf_request \/ ev = Sleep 1000 \/ ev = Sleep 2000)
       (fst (run (analyzeImage (sample_browser third_time_lucky no_translation)
                    Json.parse Json.stringify leaf_png None)))
  /\ fold_right Z.add 0
       (delays (fst (run (analyzeImage (sample_browser third_time_lucky no_translation)
                            Json.parse Json.stringify leaf_png None)))) <= 3000.
Proof.
  exact (analyzeImage_bounded_requests
           (sample_browser third_time_lucky no_translation)
           Json.parse Json.stringify leaf_png _ None eq_refl).
Defined.

(** X8. A submission resolves only with what the first attempt that does
    not fail yields: that attempt is one of the three, every attempt before
    it failed, its response has a status 200-299 and a body that is not
    empty, the result is read from that body, and no request follows it. *)
Theorem analyzeImage_result_provenance (browser : Browser)
  (JSON_parse : string -> option JSValue) (JSON_stringify : JSValue -> string)
  (imageFile compressed : File) (language : option Language)
  (trace : Trace) (result : string) :
  run (compressImage browser imageFile None None) = ([], Resolved compressed) ->
  run (analyzeImage browser JSON_parse JSON_stringify imageFile language)
  = (trace, Resolved result) ->
  exists (k : nat) (r : Response) (body : string),
    (k < 3)%nat
    /\ (forall i, (i < k)%nat ->
                  attempt_fails JSON_parse JSON_stringify (net browser i) = true)
    /\ net browser k = Resolved r
    /\ ok r = true
    /\ text r = Resolved body
    /\ body <> ""
    /\ result
       = match JSON_parse body with
         | None => body
         | Some webhookResponse =>
           match optional_text webhookResponse with
           | Some (JString analysisText) => analysisText
           | _ => "Could not find analysis text in the response. The service returned:"
                  ++ newline ++ newline ++ JSON_stringify webhookResponse
           end
         end
    /\ fetch_count trace = S k.
Proof.
  intros Hc Hrun.
  rewrite (analyzeImage_run _ _ _ _ compressed) in Hrun by exact Hc.
  rewrite retry_loop_run in Hrun. unfold attempt_fails.
  destruct (attempt_outcome _ _ (net browser 0)) as [s0|e0] eqn:H0.
  { injection Hrun as <- <-.
    destruct (attempt_outcome_resolved_inv _ _ _ _ H0)
      as (r & body & Hr & Hok & Hb & Hne & Hs).
    rewrite H0 in Hs. injection Hs as ->.
    exists 0%nat, r, body. repeat split; try assumption; lia. }
  destruct (attempt_outcome _ _ (net browser 1)) as [s1|e1] eqn:H1.
  { injection Hrun as <- <-.
    destruct (attempt_outcome_resolved_inv _ _ _ _ H1)
      as (r & body & Hr & Hok & Hb & Hne & Hs).
    rewrite H1 in Hs. injection Hs as ->.
    exists 1%nat, r, body. repeat split; try assumption; try lia.
    intros [|i] Hi; [now rewrite H0 | lia]. }
  destruct (attempt_outcome _ _ (net browser 2)) as [s2|e2] eqn:H2;
    [|discriminate].
  injection Hrun as <- <-.
  destruct (attempt_outcome_resolved_inv _ _ _ _ H2)
    as (r & body & Hr & Hok & Hb & Hne & Hs).
  rewrite H2 in Hs. injection Hs as ->.
  exists 2%nat, r, body. repeat split; try assumption; try lia.
  intros [|[|i]] Hi; [now rewrite H0 | now rewrite H1 | lia].
Qed.

Lemma analyzeImage_result_provenance_witness :
  exists (k : nat) (r : Response) (body : string),
    (k < 3)%nat
    /\ (forall i, (i < k)%nat ->
                  attempt_fails Json.parse Json.stringify (third_time_lucky i) = true)
    /\ third_time_lucky k = Resolved r
    /\ ok r = true
    /\ text r = Resolved body
    /\ body <> ""
    /\ "ok"
       = match Json.parse body with
         | None => body
         | Some webhookResponse =>
           match optional_text webhookResponse with
           | Some (JString analysisText) => analysisText
           | _ => "Could not find analysis text in the response. The service returned:"
                  ++ newline ++ newline ++ Json.stringify webhookResponse
           end
         end
    /\ fetch_count [leaf_request; Sleep 1000; leaf_request; Sleep 2000; leaf_request]
       = S k.
Proof.
  exact (analyzeImage_result_provenance
           (sample_browser third_time_lucky no_translation)
           Json.parse Json.stringify leaf_png _ None _ "ok" eq_refl eq_refl).
Defined.

(** X9. Once the image is compressed, a submission can reject in one way
    only: after three requests and both delays, every attempt having
    failed, with the error for exhausted attempts built from the failure of
    the third. *)
Theorem analyzeImage_rejects_only_exhausted (browser : Browser)
  (JSON_parse : string -> option JSValue) (JSON_stringify : JSValue -> string)
  (imageFile compressed : File) (language : option Language)
  (trace : Trace) (e : Thrown) :
  run (compressImage browser imageFile None None) = ([], Resolved compressed) ->
  run (analyzeImage browser JSON_parse JSON_stringify imageFile language)
  = (trace, Rejected e) ->
  (forall i, (i < 3)%nat ->
             attempt_fails JSON_parse JSON_stringify (net browser i) = true)
  /\ trace = [submission compressed language; Sleep 1000;
              submission compressed language; Sleep 2000;
              submission compressed language]
  /\ exists lastError,
       attempt_outcome JSON_parse JSON_stringify (net browser 2) = Rejected lastError
       /\ e = ErrorObj (new_Error (exhausted_message (Some (toError lastError)))).
Proof.
  intros Hc Hrun.
  rewrite (analyzeImage_run _ _ _ _ compressed) in Hrun by exact Hc.
  rewrite retry_loop_run in Hrun. unfold attempt_fails.
  destruct (attempt_outcome _ _ (net browser 0)) eqn:H0; [discriminate|].
  destruct (attempt_outcome _ _ (net browser 1)) eqn:H1; [discriminate|].
  destruct (attempt_outcome _ _ (net browser 2)) as [|e2] eqn:H2; [discriminate|].
  injection Hrun as <- <-. repeat split.
  - intros [|[|[|i]]] Hi; [now rewrite H0 | now rewrite H1 | now rewrite H2 | lia].
  - now exists e2.
Qed.

Lemma analyzeImage_rejects_only_exhausted_witness :
  (forall i, (i < 3)%nat ->
             attempt_fails Json.parse Json.stringify
               (always (reply 503 "Service Unavailable" "") i) = true)
  /\ [leaf_request; Sleep 1000; leaf_request; Sleep 2000; leaf_request]
     = [leaf_request; Sleep 1000; leaf_request; Sleep 2000; leaf_request]
  /\ exists lastError,
       attempt_outcome Json.parse Json.stringify
         (always (reply 503 "Service Unavailable" "") 2%nat) = Rejected lastError
       /\ ErrorObj (new_Error
            "Failed to get a response from the analysis service after 3 attempts. The service may be temporarily unavailable. Last error: Webhook request failed: 503 Service Unavailable - (no error body)")
          = ErrorObj (new_Error (exhausted_message (Some (toError lastError)))).
Proof.
  exact (analyzeImage_rejects_only_exhausted
           (sample_browser (always (reply 503 "Service Unavailable" "")) no_translation)
           Json.parse Json.stringify leaf_png _ None _ _ eq_refl eq_refl).
Defined.

(** ** Translation Adapter: requests and results *)

Lemma string_app_assoc (a b c : string) :
  (a ++ b) ++ c = a ++ (b ++ c).
Proof.
  induction a as [|x a IH]; simpl; [reflexivity | now rewrite IH].
Qed.

(** [translateText], by what the client and the service do. *)
Lemma translateText_run (browser : Browser) (text : string)
  (targetLanguage : Language) (t : Trace) :
  translateText browser text targetLanguage t
  = if is_empty text then (t, Resolved "")
    else match genai_new browser with
         | Some _ => (t, Resolved text)
         | None =>
           ((t ++ [GenerateContent "gemini-3-flash-preview"
                     (translation_prompt text targetLanguage)])%list,
            Resolved
              match generateContent browser "gemini-3-flash-preview"
                      (translation_prompt text targetLanguage) with
              | Resolved response =>
                match gen_text response with
                | Some translatedText =>
                  if is_empty translatedText then text else translatedText
                | None => text
                end
              | Rejected _ => text
              end)
         end.
Proof.
  unfold translateText, new_GoogleGenAI, models_generateContent, translation_model.
  destruct (is_empty text); [reflexivity|].
  autounfold with async.
  destruct (genai_new browser); [reflexivity|].
  destruct (generateContent browser _ _) as [[[translated|]]|]; cbn;
    try reflexivity.
  destruct (is_empty translated); reflexivity.
Qed.

(** X10. [translateText] sends at most one request and never calls the
    webhook: none for the empty text or when the client cannot be built,
    and otherwise a single [generateContent] for the model, with a prompt
    that ends with the text. *)
Theorem translateText_single_request (browser : Browser) (text : string)
  (targetLanguage : Language) (t : Trace) :
  fst (translateText browser text targetLanguage t)
  = (t ++ if is_empty text then []
          else match genai_new browser with
               | Some _ => []
               | None => [GenerateContent "gemini-3-flash-preview"
                            (translation_prompt text targetLanguage)]
               end)%list
  /\ (exists prefix,
         translation_prompt text targetLanguage = prefix ++ text)
  /\ fetch_count (fst (translateText browser text targetLanguage t))
     = fetch_count t.
Proof.
  rewrite translateText_run. split; [|split].
  - destruct (is_empty text); [cbn; now rewrite app_nil_r|].
    destruct (genai_new browser); [cbn; now rewrite app_nil_r|reflexivity].
  - unfold translation_prompt. eexists.
    rewrite <- !string_app_assoc. reflexivity.
  - destruct (is_empty text); [reflexivity|].
    destruct (genai_new browser); [reflexivity|].
    cbn [fst]. rewrite fetch_count_app. cbn. lia.
Qed.

(** X11. [translateText] always resolves, and with the empty string only for
    the empty text: a text that is not empty is never replaced by nothing. *)
Theorem translateText_empty_iff (browser : Browser) (text : string)
  (targetLanguage : Language) (t : Trace) :
  exists t' result,
    translateText browser text targetLanguage t = (t', Resolved result)
    /\ (result = "" <-> text = "").
Proof.
  rewrite translateText_run.
  destruct text as [|c text']; cbn [is_empty].
  - eexists _, _. split; [reflexivity|tauto].
  - destruct (genai_new browser).
    + eexists _, _. split; [reflexivity|]. split; discriminate.
    + eexists _, _. split; [reflexivity|].
      split; [|discriminate].
      destruct (generateContent browser _ _) as [[[[|d tr]|]]|]; discriminate.
Qed.

(** ** String replacement *)

Lemma strip_prefix_app (pat rest : string) :
  Json.strip_prefix pat (pat ++ rest) = Some rest.
Proof.
  induction pat as [|c pat IH]; simpl.
  - reflexivity.
  - now rewrite Ascii.eqb_refl.
Qed.

Lemma strip_prefix_sound (pat s rest : string) :
  Json.strip_prefix pat s = Some rest -> s = pat ++ rest.
Proof.
  revert s. induction pat as [|c pat IH]; intros s H; simpl in *.
  - now injection H as ->.
  - destruct s as [|d s]; [discriminate|].
    destruct (Ascii.eqb_spec c d) as [<-|]; [|discriminate].
    now rewrite (IH s H).
Qed.

(** [split_at_first] cuts the string around an occurrence of the pattern. *)
Lemma split_at_first_sound (pat s preceding following : string) :
  split_at_first pat s = Some (preceding, following) ->
  s = preceding ++ pat ++ following.
Proof.
  revert preceding. induction s as [|c s IH]; intros preceding H.
  - simpl in H. destruct (Json.strip_prefix pat "") eqn:Hp; [|discriminate].
    injection H as <- <-. exact (strip_prefix_sound _ _ _ Hp).
  - cbn [split_at_first] in H.
    destruct (Json.strip_prefix pat (String c s)) eqn:Hp.
    + injection H as <- <-. exact (strip_prefix_sound _ _ _ Hp).
    + destruct (split_at_first pat s) as [[p f]|]; [|discriminate].
      injection H as <- <-. simpl. now rewrite (IH p eq_refl).
Qed.

(** The occurrence is the first when the text before it lacks the first
    character of the pattern. *)
Lemma split_at_first_fresh (c : ascii) (pat preceding following : string) :
  contains_char c preceding = false ->
  split_at_first (String c pat) (preceding ++ String c pat ++ following)
  = Some (preceding, following).
Proof.
  intros H. induction preceding as [|d preceding IH].
  - change ("" ++ String c pat ++ following) with (String c pat ++ following).
    destruct (String c pat ++ following) eqn:E;
      cbn [split_at_first]; rewrite <- E, strip_prefix_app; reflexivity.
  - simpl in H. apply orb_false_iff in H as [Hd H].
    cbn [append split_at_first Json.strip_prefix].
    rewrite Ascii.eqb_sym, Hd.
    specialize (IH H). cbn [append] in IH. now rewrite IH.
Qed.

Lemma split_at_first_absent (c : ascii) (pat s : string) :
  contains_char c s = false -> split_at_first (String c pat) s = None.
Proof.
  induction s as [|d s IH]; intros H.
  - reflexivity.
  - simpl in H. apply orb_false_iff in H as [Hd H].
    cbn [split_at_first Json.strip_prefix].
    rewrite Ascii.eqb_sym, Hd. now rewrite IH.
Qed.

(** A replacement text without a dollar sign stands for itself. *)
Lemma get_substitution_plain (matched preceding following template : string) :
  contains_char "$" template = false ->
  get_substitution matched preceding following template = template.
Proof.
  induction template as [|c template IH]; intros H.
  - reflexivity.
  - simpl in H. apply orb_false_iff in H as [Hc H].
    cbn [get_substitution]. rewrite Hc. now rewrite IH.
Qed.

Lemma get_substitution_app_plain (matched preceding following a b : string) :
  contains_char "$" a = false ->
  get_substitution matched preceding following (a ++ b)
  = a ++ get_substitution matched preceding following b.
Proof.
  induction a as [|c a IH]; intros H.
  - reflexivity.
  - simpl in H. apply orb_false_iff in H as [Hc H].
    cbn [append get_substitution]. rewrite Hc. now rewrite IH.
Qed.

(** ** The application *)

(** X12. [handleSubmit] never rejects.  Without a selected image it sends
    nothing and only sets the error to the text asking for an image.  With
    one it ends with [loading] off and with exactly one of a report and an
    error, and it leaves the theme, both languages and the selection as they
    were. *)
Theorem handleSubmit_settles (browser : Browser)
  (JSON_parse : string -> option JSValue) (JSON_stringify : JSValue -> string)
  (translations : App.UiLanguage -> App.Translations)
  (s : App.State) (t : Trace) :
  exists t' s',
    App.handleSubmit browser JSON_parse JSON_stringify translations s t
    = (t', Resolved s')
    /\ (App.selectedImage s = None ->
        t' = t
        /\ s' = App.setError
                  (Some (App.selectImageError (translations (App.language s)))) s)
    /\ (App.selectedImage s <> None ->
        App.loading s' = false
        /\ (App.analysisResult s' = None <-> App.error s' <> None))
    /\ App.theme s' = App.theme s
    /\ App.language s' = App.language s
    /\ App.outputLanguage s' = App.outputLanguage s
    /\ App.selectedImage s' = App.selectedImage s.
Proof.
  unfold App.handleSubmit.
  destruct (App.selectedImage s) as [image|] eqn:Hi.
  - unfold bind, try_catch.
    destruct (analyzeImage browser JSON_parse JSON_stringify image _ t)
      as [t' [result|e]]; eexists _, _; (split; [reflexivity|]);
      cbn; rewrite ?Hi; repeat split; try congruence; intros; congruence.
  - eexists _, _. split; [reflexivity|].
    cbn. rewrite ?Hi. repeat split; congruence.
Qed.

(** X13. When the submission rejects with an error whose message has no
    dollar sign, the error displayed is the text [analysisFailedError] with
    its first [{errorMessage}] replaced by that message; a rejection by a
    value that is not an error puts ["An unknown error occurred."] there;
    and a text without a brace is displayed as it is, the message lost. *)
Theorem handleSubmit_shows_error_message (browser : Browser)
  (JSON_parse : string -> option JSValue) (JSON_stringify : JSValue -> string)
  (translations : App.UiLanguage -> App.Translations)
  (s : App.State) (image : File) (t t' : Trace) (e : Thrown) :
  App.selectedImage s = Some image ->
  analyzeImage browser JSON_parse JSON_stringify image
    (Some (App.outputLanguage s)) t = (t', Rejected e) ->
  contains_char "$" (App.errorMessage_of e) = false ->
  exists s',
    App.handleSubmit browser JSON_parse JSON_stringify translations s t
    = (t', Resolved s')
    /\ App.analysisResult s' = None
    /\ App.errorMessage_of e
       = match e with
         | ErrorObj err => message err
         | OtherValue _ => "An unknown error occurred."
         end
    /\ (forall before after,
           App.analysisFailedError (translations (App.language s))
           = before ++ "{errorMessage}" ++ after ->
           contains_char "{" before = false ->
           App.error s' = Some (before ++ App.errorMessage_of e ++ after))
    /\ (contains_char "{"
          (App.analysisFailedError (translations (App.language s))) = false ->
        App.error s'
        = Some (App.analysisFailedError (translations (App.language s)))).
Proof.
  intros Hi Hrun Hplain. unfold App.handleSubmit.
  rewrite Hi. unfold bind, try_catch. rewrite Hrun.
  eexists. split; [reflexivity|].
  cbn [App.analysisResult App.error App.setLoading App.setError
       App.setAnalysisResult].
  split; [reflexivity|]. split; [now destruct e|]. split.
  - intros before after -> Hfresh. unfold js_replace.
    rewrite (split_at_first_fresh "{" "errorMessage}") by exact Hfresh.
    now rewrite get_substitution_plain.
  - intros Habsent. unfold js_replace.
    now rewrite (split_at_first_absent "{" "errorMessage}").
Qed.

Lemma handleSubmit_shows_error_message_witness :
  exists s',
    App.handleSubmit
      (sample_browser (always (reply 503 "Service Unavailable" "")) no_translation)
      Json.parse Json.stringify sample_translations leaf_chosen []
    = ([leaf_request; Sleep 1000; leaf_request; Sleep 2000; leaf_request],
       Resolved s')
    /\ App.error s'
       = Some ("Analysis failed: "
               ++ "Failed to get a response from the analysis service after 3 attempts. The service may be temporarily unavailable. Last error: Webhook request failed: 503 Service Unavailable - (no error body)"
               ++ "").
Proof.
  destruct (handleSubmit_shows_error_message
              (sample_browser (always (reply 503 "Service Unavailable" ""))
                 no_translation)
              Json.parse Json.stringify sample_translations leaf_chosen
              leaf_png [] _ _ eq_refl eq_refl eq_refl)
    as (s' & Hrun & _ & _ & Hshow & _).
  exists s'. split; [exact Hrun|].
  exact (Hshow "Analysis failed: " "" eq_refl eq_refl).
Defined.

(** X14. The error message is used as a replacement pattern, not as plain
    text: where it holds [$&], the display holds the placeholder
    [{errorMessage}] instead. *)
Theorem handleSubmit_dollar_ampersand (browser : Browser)
  (JSON_parse : string -> option JSValue) (JSON_stringify : JSValue -> string)
  (translations : App.UiLanguage -> App.Translations)
  (s : App.State) (image : File) (t t' : Trace) (err : Error)
  (a b before after : string) :
  App.selectedImage s = Some image ->
  analyzeImage browser JSON_parse JSON_stringify image
    (Some (App.outputLanguage s)) t = (t', Rejected (ErrorObj err)) ->
  message err = a ++ "$&" ++ b ->
  contains_char "$" a = false ->
  contains_char "$" b = false ->
  App.analysisFailedError (translations (App.language s))
  = before ++ "{errorMessage}" ++ after ->
  contains_char "{" before = false ->
  exists s',
    App.handleSubmit browser JSON_parse JSON_stringify translations s t
    = (t', Resolved s')
    /\ App.error s' = Some (before ++ (a ++ "{errorMessage}" ++ b) ++ after).
Proof.
  intros Hi Hrun Hmsg Ha Hb Htpl Hfresh. unfold App.handleSubmit.
  rewrite Hi. unfold bind, try_catch. rewrite Hrun.
  eexists. split; [reflexivity|].
  cbn [App.analysisResult App.error App.setLoading App.setError
       App.setAnalysisResult App.errorMessage_of].
  rewrite Htpl, Hmsg. unfold js_replace.
  rewrite (split_at_first_fresh "{" "errorMessage}") by exact Hfresh.
  rewrite get_substitution_app_plain by exact Ha.
  change ("$&" ++ b) with (String "$" (String "&" b)).
  cbn [get_substitution]. cbn [Ascii.eqb Bool.eqb].
  now rewrite get_substitution_plain.
Qed.

Lemma handleSubmit_dollar_ampersand_witness :
  exists s',
    App.handleSubmit (sample_browser (always price_reply) no_translation)
      Json.parse Json.stringify sample_translations leaf_chosen []
    = ([leaf_request; Sleep 1000; leaf_request; Sleep 2000; leaf_request],
       Resolved s')
    /\ App.error s'
       = Some ("Analysis failed: "
               ++ ("Failed to get a response from the analysis service after 3 attempts. The service may be temporarily unavailable. Last error: Webhook request failed: 500 Internal Server Error - fee "
                   ++ "{errorMessage}" ++ " tax")
               ++ "").
Proof.
  exact (handleSubmit_dollar_ampersand
           (sample_browser (always price_reply) no_translation)
           Json.parse Json.stringify sample_translations leaf_chosen
           leaf_png [] _ _
           "Failed to get a response from the analysis service after 3 attempts. The service may be temporarily unavailable. Last error: Webhook request failed: 500 Internal Server Error - fee "
           " tax" "Analysis failed: " ""
           eq_refl eq_refl eq_refl eq_refl eq_refl eq_refl eq_refl).
Defined.

(** X15. [handleOutputLanguageChange] never rejects and never calls the
    webhook.  For the language already selected it does nothing.  For
    another one it selects it; without a report to translate it stops
    there, and with one it asks for one translation, ends with [loading]
    off, and leaves a report that is still not empty. *)
Theorem handleOutputLanguageChange_settles (browser : Browser)
  (newLang : Language) (s : App.State) (t : Trace) :
  exists t' s',
    App.handleOutputLanguageChange browser newLang s t = (t', Resolved s')
    /\ fetch_count t' = fetch_count t
    /\ (newLang = App.outputLanguage s -> t' = t /\ s' = s)
    /\ (newLang <> App.outputLanguage s ->
        App.outputLanguage s' = newLang
        /\ (App.truthy (App.analysisResult s) = false ->
            t' = t /\ s' = App.setOutputLanguage newLang s)
        /\ (forall report,
               App.analysisResult s = Some report ->
               report <> "" ->
               t' = fst (translateText browser report newLang t)
               /\ App.loading s' = false
               /\ App.truthy (App.analysisResult s') = true))
    /\ App.selectedImage s' = App.selectedImage s
    /\ App.error s' = App.error s
    /\ App.theme s' = App.theme s
    /\ App.language s' = App.language s.
Proof.
  unfold App.handleOutputLanguageChange.
  destruct (App.Language_eqb newLang (App.outputLanguage s)) eqn:Heq.
  - assert (newLang = App.outputLanguage s)
      by (destruct newLang, (App.outputLanguage s); (reflexivity || discriminate)).
    eexists _, _. split; [reflexivity|]. repeat split; congruence.
  - assert (newLang <> App.outputLanguage s)
      by (intros ->; destruct (App.outputLanguage s); discriminate).
    destruct (App.analysisResult s) as [[|c report]|] eqn:Hr.
    + eexists _, _. split; [reflexivity|]. cbn.
      repeat split; congruence.
    + cbn [is_empty]. unfold bind, try_catch.
      destruct (translateText_empty_iff browser (String c report) newLang t)
        as (t' & result & Hrun & Hne).
      pose proof (translateText_single_request browser (String c report) newLang t)
        as (_ & _ & Hfetch).
      rewrite Hrun in *. cbn [fst] in Hfetch.
      eexists _, _. split; [reflexivity|]. cbn.
      repeat split; try congruence.
      * match goal with E : Some _ = Some _ |- _ => injection E as <- end.
        now rewrite Hrun.
      * destruct result; [|reflexivity].
        now destruct (proj1 Hne eq_refl).
    + eexists _, _. split; [reflexivity|]. cbn.
      repeat split; congruence.
Qed.

(** Every action takes a state at rest to a state at rest, and none
    rejects. *)
Lemma perform_at_rest (browser : Browser)
  (JSON_parse : string -> option JSValue) (JSON_stringify : JSValue -> string)
  (translations : App.UiLanguage -> App.Translations)
  (a : App.Action) (s : App.State) (t : Trace) :
  at_rest s ->
  exists t' s',
    App.perform browser JSON_parse JSON_stringify translations a s t
    = (t', Resolved s')
    /\ at_rest s'.
Proof.
  intros (Hl & Hi & Hx). destruct a; cbn [App.perform].
  - eexists _, _. split; [reflexivity|]. now repeat split.
  - eexists _, _. split; [reflexivity|]. now repeat split.
  - eexists _, _. split; [reflexivity|]. cbn. repeat split; auto; congruence.
  - eexists _, _. split; [reflexivity|]. cbn. repeat split; auto; congruence.
  - destruct (handleOutputLanguageChange_settles browser newLang s t)
      as (t' & s' & Hrun & _ & Hsame & Hother & Hsel & Herr & _).
    exists t', s'. split; [exact Hrun|].
    destruct (App.Language_eqb newLang (App.outputLanguage s)) eqn:Heq.
    + assert (newLang = App.outputLanguage s)
        by (destruct newLang, (App.outputLanguage s); (reflexivity || discriminate)).
      destruct (Hsame H) as [_ ->]. now repeat split.
    + assert (Hne : newLang <> App.outputLanguage s)
        by (intros ->; destruct (App.outputLanguage s); discriminate).
      destruct (Hother Hne) as (_ & Hnone & Hsome).
      assert (Hcases : App.truthy (App.analysisResult s) = false
                       \/ exists report,
                            App.analysisResult s = Some report /\ report <> "").
      { destruct (App.analysisResult s) as [[|c report]|]; auto.
        right. exists (String c report). now split. }
      destruct Hcases as [Hfalsy|(report & Hr & Hreport)].
      * destruct (Hnone Hfalsy) as [_ ->]. now repeat split.
      * destruct (Hsome report Hr Hreport) as (_ & Hl' & _).
        repeat split; [exact Hl' | | ].
        -- intros _. rewrite Hsel. apply Hi. congruence.
        -- right. rewrite Herr. destruct Hx as [Hx|Hx]; [congruence|exact Hx].
  - destruct (handleSubmit_settles browser JSON_parse JSON_stringify translations s t)
      as (t' & s' & Hrun & Hnone & Hsome & _ & _ & _ & Hsel).
    exists t', s'. split; [exact Hrun|].
    destruct (App.selectedImage s) as [image|] eqn:Himg.
    + destruct (Hsome ltac:(discriminate)) as (Hl' & Hone).
      repeat split; [exact Hl' | congruence |].
      destruct (App.analysisResult s'); [right|now left].
      destruct (App.error s') as [e|]; [|reflexivity].
      assert (Some e <> None) as Hc by discriminate.
      apply Hone in Hc. discriminate.
    + destruct (Hnone eq_refl) as [_ ->].
      assert (App.analysisResult s = None) as Hr.
      { destruct (App.analysisResult s); [|reflexivity].
        exfalso. apply Hi; [discriminate|reflexivity]. }
      unfold at_rest. cbn.
      split; [exact Hl | split; [congruence | left; exact Hr]].
Qed.

(** X16. In a session in which each action is completed before the next
    begins, whatever the actions and whatever the outside world answers to
    each, no handler rejects and the application ends at rest: nothing is
    loading, the language buttons are enabled, the submit button is enabled
    exactly when an image is selected, and displayed results belong to a
    selected image and are not shown beside an error. *)
Theorem session_at_rest (JSON_parse : string -> option JSValue)
  (JSON_stringify : JSValue -> string)
  (translations : App.UiLanguage -> App.Translations)
  (steps : list (Browser * App.Action)) (t : Trace) :
  exists t' s',
    App.session JSON_parse JSON_stringify translations steps App.initial t
    = (t', Resolved s')
    /\ at_rest s'
    /\ App.language_buttons_disabled s' = false
    /\ (App.submit_disabled s' = false <-> App.selectedImage s' <> None)
    /\ (App.shows_results s' = true ->
        App.selectedImage s' <> None /\ App.shows_error s' = false).
Proof.
  assert (Hgen : forall s u, at_rest s ->
            exists t' s',
              App.session JSON_parse JSON_stringify translations steps s u
              = (t', Resolved s') /\ at_rest s').
  { induction steps as [|[browser a] steps IH]; intros s u Hs.
    - exists u, s. now split.
    - destruct (perform_at_rest browser JSON_parse JSON_stringify translations
                  a s u Hs) as (u1 & s1 & Hrun & Hs1).
      destruct (IH s1 u1 Hs1) as (u2 & s2 & Hrun2 & Hs2).
      exists u2, s2. split; [|exact Hs2].
      cbn [App.session]. unfold bind. now rewrite Hrun. }
  destruct (Hgen App.initial t) as (t' & s' & Hrun & Hrest).
  { repeat split; [intros H; now contradiction H | now left]. }
  exists t', s'. split; [exact Hrun|]. split; [exact Hrest|].
  destruct Hrest as (Hl & Hi & Hx).
  unfold App.language_buttons_disabled, App.submit_disabled, App.shows_results,
    App.shows_error. rewrite Hl. repeat split.
  - destruct (App.selectedImage s'); [discriminate|discriminate].
  - destruct (App.selectedImage s'); [reflexivity|congruence].
  - apply Hi. destruct (App.analysisResult s'); [discriminate|discriminate].
  - destruct Hx as [Hx|Hx]; rewrite Hx in *; [discriminate|reflexivity].
Qed.

(** X17. The theme button switches between the two themes, so that two
    presses restore the state, and its label announces the theme that the
    next press selects. *)
Theorem toggleTheme_label (s : App.State) :
  App.toggleTheme (App.toggleTheme s) = s
  /\ App.theme (App.toggleTheme s) <> App.theme s
  /\ App.theme_button_label (App.theme s)
     = "Switch to " ++ App.Theme_string (App.theme (App.toggleTheme s)) ++ " mode".
Proof.
  destruct s as [[] l i r b e o]; repeat split; discriminate.
Qed.
